(** * MentorConnect: the in-memory storage layer and its HTTP callers

    A shallow embedding of [server/storage.ts] (class [MemStorage]) and of the
    handlers of [server/routes.ts] that the specification talks about
    (registration and dashboard statistics), followed by the properties of
    the specification, each proved or refuted on the embedding.

    Conventions of the embedding:
    - a JavaScript [Map<string, V>] is an insertion-ordered association
      list: [Array.from(m.values())] walks it in insertion order, and the
      code depends on that order ([find] returns the first match, the
      floating-point sum of the dashboard is accumulated left to right);
    - a [Date] is its time value, an integer count of milliseconds;
    - an integer column of the schema is a [Z]; the one place where the code
      leaves the integers ([duration / 60], its sum and [Math.round]) is
      computed in IEEE-754 binary64, as JavaScript does;
    - [randomUUID()] and [new Date()] are inputs of the operation that
      calls them;
    - a method that mutates the store returns the new store with its result. *)

From Stdlib Require Import ZArith QArith Qround List Ascii String Bool Lia.
From Stdlib Require Import Floats.SpecFloat.
Import ListNotations.
Local Open Scope string_scope.
Local Open Scope Z_scope.
Local Open Scope list_scope.

Set Implicit Arguments.

(* ================================================================== *)
(** ** JavaScript values the code tests for truthiness *)

(** A property of a zod-parsed insert object whose column is nullable or
    has a default: it may be missing ([undefined]), [null], or a value. *)
Inductive optional (A : Type) : Type :=
| undefined : optional A
| null : optional A
| value : A -> optional A.
Arguments undefined {A}.
Arguments null {A}.
Arguments value {A} _.

Definition truthy_string (s : string) : bool :=
  match s with EmptyString => false | _ => true end.

Definition truthy_number (n : Z) : bool := negb (n =? 0).

(** [x || null] for a property of type [A | null | undefined]. *)
Definition or_null {A : Type} (truthy : A -> bool) (x : optional A) : option A :=
  match x with
  | value a => if truthy a then Some a else None
  | _ => None
  end.

(** [x || d] for a property of type [string | undefined]. *)
Definition or_default (x : optional string) (d : string) : string :=
  match x with
  | value a => if truthy_string a then a else d
  | _ => d
  end.

(** [{ ...a, f: b.f }] for one property [f] of a [Partial<_>] object:
    the property of [b] wins when [b] has it. *)
Definition merge {A : Type} (old : A) (new : option A) : A :=
  match new with Some v => v | None => old end.

(* ================================================================== *)
(** ** [Map<string, V>] *)

Module JsMap.
Section Ops.
Variable V : Type.

Definition t := list (string * V).

Definition empty : t := [].

Fixpoint get (m : t) (k : string) : option V :=
  match m with
  | [] => None
  | (k', v) :: r => if String.eqb k' k then Some v else get r k
  end.

Definition has (m : t) (k : string) : bool :=
  match get m k with Some _ => true | None => false end.

(** [m.set(k, v)]: an existing key keeps its place, a new key goes last. *)
Fixpoint set (m : t) (k : string) (v : V) : t :=
  match m with
  | [] => [(k, v)]
  | (k', v') :: r =>
      if String.eqb k' k then (k', v) :: r else (k', v') :: set r k v
  end.

(** [m.delete(k)]: the entries left, and whether there was one to remove.
    [remove] drops the entries of the key; a [Map] has at most one. *)
Definition remove (m : t) (k : string) : t :=
  filter (fun e => negb (String.eqb (fst e) k)) m.

Definition delete (m : t) (k : string) : t * bool := (remove m k, has m k).

Definition keys (m : t) : list string := map fst m.
Definition values (m : t) : list V := map snd m.

(** The representation invariant of a [Map]: one entry per key. *)
Definition wf (m : t) : Prop := NoDup (keys m).
End Ops.
End JsMap.

(* ================================================================== *)
(** ** The schema ([shared/schema.ts]) *)

Definition timestamp := Z.

(** [typeof users.$inferSelect] *)
Record User := mkUser {
  u_id : string;
  u_email : string;
  u_password : string;
  u_firstName : string;
  u_lastName : string;
  u_userType : string;
  u_area : string;
  u_bio : option string;
  u_skills : option (list string);
  u_hourlyRate : option Z;
  u_rating : option Z;
  u_reviewCount : option Z;
  u_avatarUrl : option string;
  u_createdAt : option timestamp
}.

(** [z.infer<typeof insertUserSchema>]: [id], [createdAt], [rating] and
    [reviewCount] omitted; nullable columns optional. *)
Record InsertUser := mkInsertUser {
  iu_email : string;
  iu_password : string;
  iu_firstName : string;
  iu_lastName : string;
  iu_userType : string;
  iu_area : string;
  iu_bio : optional string;
  iu_skills : optional (list string);
  iu_hourlyRate : optional Z;
  iu_avatarUrl : optional string
}.

(** [Partial<User>]: [None] is a property the object does not have; a
    property that it has carries a value of the column's type. *)
Record PartialUser := mkPartialUser {
  pu_id : option string;
  pu_email : option string;
  pu_password : option string;
  pu_firstName : option string;
  pu_lastName : option string;
  pu_userType : option string;
  pu_area : option string;
  pu_bio : option (option string);
  pu_skills : option (option (list string));
  pu_hourlyRate : option (option Z);
  pu_rating : option (option Z);
  pu_reviewCount : option (option Z);
  pu_avatarUrl : option (option string);
  pu_createdAt : option (option timestamp)
}.

(** [typeof sessions.$inferSelect] *)
Record Session := mkSession {
  s_id : string;
  s_studentId : string;
  s_mentorId : string;
  s_topic : string;
  s_description : option string;
  s_scheduledAt : timestamp;
  s_duration : Z;
  s_status : string;
  s_createdAt : option timestamp
}.

Record InsertSession := mkInsertSession {
  is_studentId : string;
  is_mentorId : string;
  is_topic : string;
  is_description : optional string;
  is_scheduledAt : timestamp;
  is_duration : Z;
  is_status : optional string
}.

(** [typeof kanbanItems.$inferSelect] *)
Record KanbanItem := mkKanbanItem {
  k_id : string;
  k_title : string;
  k_description : option string;
  k_type : string;
  k_status : string;
  k_points : option Z;
  k_assignee : option string;
  k_priority : option string;
  k_progress : option Z;
  k_createdAt : option timestamp
}.

Record InsertKanbanItem := mkInsertKanbanItem {
  ik_title : string;
  ik_description : optional string;
  ik_type : string;
  ik_status : optional string;
  ik_points : optional Z;
  ik_assignee : optional string;
  ik_priority : optional string;
  ik_progress : optional Z
}.

(** [Partial<KanbanItem>] *)
Record PartialKanbanItem := mkPartialKanbanItem {
  pk_id : option string;
  pk_title : option string;
  pk_description : option (option string);
  pk_type : option string;
  pk_status : option string;
  pk_points : option (option Z);
  pk_assignee : option (option string);
  pk_priority : option (option string);
  pk_progress : option (option Z);
  pk_createdAt : option (option timestamp)
}.

(* ================================================================== *)
(** ** [class MemStorage] *)

Record MemStorage := mkMemStorage {
  users : JsMap.t User;
  sessions : JsMap.t Session;
  kanbanItems : JsMap.t KanbanItem
}.

Definition set_users (st : MemStorage) (m : JsMap.t User) : MemStorage :=
  mkMemStorage m (sessions st) (kanbanItems st).
Definition set_sessions (st : MemStorage) (m : JsMap.t Session) : MemStorage :=
  mkMemStorage (users st) m (kanbanItems st).
Definition set_kanbanItems (st : MemStorage) (m : JsMap.t KanbanItem) : MemStorage :=
  mkMemStorage (users st) (sessions st) m.

(** *** Users *)

Definition getUser (st : MemStorage) (id : string) : option User :=
  JsMap.get (users st) id.

Definition getUserByEmail (st : MemStorage) (email : string) : option User :=
  find (fun user => String.eqb (u_email user) email) (JsMap.values (users st)).

(** [id] is the result of [randomUUID()], [now] the one of [new Date()]. *)
Definition createUser (st : MemStorage) (insertUser : InsertUser)
    (id : string) (now : timestamp) : MemStorage * User :=
  let user := {|
    u_email := iu_email insertUser;
    u_password := iu_password insertUser;
    u_firstName := iu_firstName insertUser;
    u_lastName := iu_lastName insertUser;
    u_userType := iu_userType insertUser;
    u_area := iu_area insertUser;
    u_id := id;
    u_rating := Some 0;
    u_reviewCount := Some 0;
    u_bio := or_null truthy_string (iu_bio insertUser);
    u_skills := or_null (fun _ => true) (iu_skills insertUser);
    u_hourlyRate := or_null truthy_number (iu_hourlyRate insertUser);
    u_avatarUrl := or_null truthy_string (iu_avatarUrl insertUser);
    u_createdAt := Some now
  |} in
  (set_users st (JsMap.set (users st) id user), user).

Definition merge_user (user : User) (userData : PartialUser) : User := {|
  u_id := merge (u_id user) (pu_id userData);
  u_email := merge (u_email user) (pu_email userData);
  u_password := merge (u_password user) (pu_password userData);
  u_firstName := merge (u_firstName user) (pu_firstName userData);
  u_lastName := merge (u_lastName user) (pu_lastName userData);
  u_userType := merge (u_userType user) (pu_userType userData);
  u_area := merge (u_area user) (pu_area userData);
  u_bio := merge (u_bio user) (pu_bio userData);
  u_skills := merge (u_skills user) (pu_skills userData);
  u_hourlyRate := merge (u_hourlyRate user) (pu_hourlyRate userData);
  u_rating := merge (u_rating user) (pu_rating userData);
  u_reviewCount := merge (u_reviewCount user) (pu_reviewCount userData);
  u_avatarUrl := merge (u_avatarUrl user) (pu_avatarUrl userData);
  u_createdAt := merge (u_createdAt user) (pu_createdAt userData)
|}.

Definition updateUser (st : MemStorage) (id : string) (userData : PartialUser)
    : MemStorage * option User :=
  match JsMap.get (users st) id with
  | None => (st, None)
  | Some user =>
      let updatedUser := merge_user user userData in
      (set_users st (JsMap.set (users st) id updatedUser), Some updatedUser)
  end.

Definition getMentors (st : MemStorage) : list User :=
  filter (fun user => String.eqb (u_userType user) "mentor") (JsMap.values (users st)).

Definition getStudents (st : MemStorage) : list User :=
  filter (fun user => String.eqb (u_userType user) "student") (JsMap.values (users st)).

(** *** Sessions *)

Definition createSession (st : MemStorage) (insertSession : InsertSession)
    (id : string) (now : timestamp) : MemStorage * Session :=
  let session := {|
    s_studentId := is_studentId insertSession;
    s_mentorId := is_mentorId insertSession;
    s_topic := is_topic insertSession;
    s_scheduledAt := is_scheduledAt insertSession;
    s_duration := is_duration insertSession;
    s_id := id;
    s_description := or_null truthy_string (is_description insertSession);
    s_status := or_default (is_status insertSession) "pending";
    s_createdAt := Some now
  |} in
  (set_sessions st (JsMap.set (sessions st) id session), session).

Definition participant (userId : string) (session : Session) : bool :=
  (String.eqb (s_studentId session) userId || String.eqb (s_mentorId session) userId)%bool.

Definition getUserSessions (st : MemStorage) (userId : string) : list Session :=
  filter (participant userId) (JsMap.values (sessions st)).

(** The filter callback of [getUpcomingSessions] evaluates [new Date()]
    itself, once for every session that passes the participant test
    ([&&] short-circuits).  A [Clock] gives the successive readings of one
    call: [clock k] is what the [k]-th evaluation of [new Date()] returns. *)
Definition Clock := nat -> timestamp.

Fixpoint upcoming_scan (clock : Clock) (k : nat) (userId : string)
    (l : list Session) : list Session :=
  match l with
  | [] => []
  | session :: r =>
      if participant userId session then
        if ((clock k <? s_scheduledAt session)
            && negb (String.eqb (s_status session) "cancelled"))%bool
        then session :: upcoming_scan clock (S k) userId r
        else upcoming_scan clock (S k) userId r
      else upcoming_scan clock k userId r
  end.

Definition getUpcomingSessions (clock : Clock) (st : MemStorage) (userId : string)
    : list Session :=
  upcoming_scan clock 0 userId (JsMap.values (sessions st)).

(** The clock of a call during which time does not advance (an injected
    clock): every reading is [now]. *)
Definition frozen (now : timestamp) : Clock := fun _ => now.

Definition updateSessionStatus (st : MemStorage) (id : string) (status : string)
    : MemStorage * option Session :=
  match JsMap.get (sessions st) id with
  | None => (st, None)
  | Some session =>
      let updatedSession := {|
        s_id := s_id session;
        s_studentId := s_studentId session;
        s_mentorId := s_mentorId session;
        s_topic := s_topic session;
        s_description := s_description session;
        s_scheduledAt := s_scheduledAt session;
        s_duration := s_duration session;
        s_createdAt := s_createdAt session;
        s_status := status
      |} in
      (set_sessions st (JsMap.set (sessions st) id updatedSession), Some updatedSession)
  end.

(** *** Kanban items *)

Definition getKanbanItems (st : MemStorage) : list KanbanItem :=
  JsMap.values (kanbanItems st).

Definition createKanbanItem (st : MemStorage) (insertItem : InsertKanbanItem)
    (id : string) (now : timestamp) : MemStorage * KanbanItem :=
  let item := {|
    k_title := ik_title insertItem;
    k_type := ik_type insertItem;
    k_id := id;
    k_description := or_null truthy_string (ik_description insertItem);
    k_points := or_null truthy_number (ik_points insertItem);
    k_assignee := or_null truthy_string (ik_assignee insertItem);
    k_priority := or_null truthy_string (ik_priority insertItem);
    k_progress := or_null truthy_number (ik_progress insertItem);
    k_status := or_default (ik_status insertItem) "backlog";
    k_createdAt := Some now
  |} in
  (set_kanbanItems st (JsMap.set (kanbanItems st) id item), item).

Definition merge_kanbanItem (item : KanbanItem) (itemData : PartialKanbanItem)
    : KanbanItem := {|
  k_id := merge (k_id item) (pk_id itemData);
  k_title := merge (k_title item) (pk_title itemData);
  k_description := merge (k_description item) (pk_description itemData);
  k_type := merge (k_type item) (pk_type itemData);
  k_status := merge (k_status item) (pk_status itemData);
  k_points := merge (k_points item) (pk_points itemData);
  k_assignee := merge (k_assignee item) (pk_assignee itemData);
  k_priority := merge (k_priority item) (pk_priority itemData);
  k_progress := merge (k_progress item) (pk_progress itemData);
  k_createdAt := merge (k_createdAt item) (pk_createdAt itemData)
|}.

Definition updateKanbanItem (st : MemStorage) (id : string)
    (itemData : PartialKanbanItem) : MemStorage * option KanbanItem :=
  match JsMap.get (kanbanItems st) id with
  | None => (st, None)
  | Some item =>
      let updatedItem := merge_kanbanItem item itemData in
      (set_kanbanItems st (JsMap.set (kanbanItems st) id updatedItem), Some updatedItem)
  end.

Definition deleteKanbanItem (st : MemStorage) (id : string) : MemStorage * bool :=
  let (m, existed) := JsMap.delete (kanbanItems st) id in
  (set_kanbanItems st m, existed).

(* ================================================================== *)
(** ** JavaScript numbers: IEEE-754 binary64 *)

Module Number.
Definition prec : Z := 53.
Definition emax : Z := 1024.

Definition number := spec_float.

(** The number an integer denotes (nearest, ties to even). *)
Definition of_Z (n : Z) : number := binary_normalize prec emax n 0 false.

Definition add : number -> number -> number := SFadd prec emax.
Definition div : number -> number -> number := SFdiv prec emax.

(** [Math.round]: the integer nearest to [x], the larger one on a tie;
    [NaN], the infinities and the zeros are returned as they are, and a
    result of zero keeps the sign of [x].  A finite [x] is
    [(-1)^s * m * 2^e]; for [e < 0] the result is
    [floor ((-1)^s * m / 2^(-e) + 1/2)]. *)
Definition nearest_integer (s : bool) (m : positive) (e : Z) : Z :=
  Z.shiftr (cond_Zopp s (Zpos m) + Z.shiftl 1 (- e - 1)) (- e).

Definition Math_round (x : number) : number :=
  match x with
  | S754_finite s m e =>
      if 0 <=? e then x
      else binary_normalize prec emax (nearest_integer s m e) 0 s
  | _ => x
  end.
End Number.

(* ================================================================== *)
(** ** The handlers of [server/routes.ts] *)

(** [const { password: _, ...userWithoutPassword } = user] *)
Record UserWithoutPassword := mkUserWithoutPassword {
  p_id : string;
  p_email : string;
  p_firstName : string;
  p_lastName : string;
  p_userType : string;
  p_area : string;
  p_bio : option string;
  p_skills : option (list string);
  p_hourlyRate : option Z;
  p_rating : option Z;
  p_reviewCount : option Z;
  p_avatarUrl : option string;
  p_createdAt : option timestamp
}.

Definition withoutPassword (user : User) : UserWithoutPassword := {|
  p_id := u_id user;
  p_email := u_email user;
  p_firstName := u_firstName user;
  p_lastName := u_lastName user;
  p_userType := u_userType user;
  p_area := u_area user;
  p_bio := u_bio user;
  p_skills := u_skills user;
  p_hourlyRate := u_hourlyRate user;
  p_rating := u_rating user;
  p_reviewCount := u_reviewCount user;
  p_avatarUrl := u_avatarUrl user;
  p_createdAt := u_createdAt user
|}.

(** The answers of [POST /api/auth/register] to a body that passed
    [insertUserSchema.parse]. *)
Inductive RegisterResponse : Type :=
| Created201 (user : UserWithoutPassword) (token : string)
| Conflict409 (message : string).

Definition register (st : MemStorage) (userData : InsertUser)
    (id : string) (now : timestamp) : MemStorage * RegisterResponse :=
  match getUserByEmail st (iu_email userData) with
  | Some _ => (st, Conflict409 "Email já está em uso")
  | None =>
      let (st', user) := createUser st userData id now in
      (st', Created201 (withoutPassword user) "mock-jwt-token")
  end.

(** [new Set(xs)]: the distinct elements of [xs], in order of first
    occurrence; [.size] is its length. *)
Fixpoint Set_add (seen : list string) (x : string) : list string :=
  match seen with
  | [] => [x]
  | y :: r => if String.eqb y x then seen else y :: Set_add r x
  end.

Definition Set_of (xs : list string) : list string := fold_left Set_add xs [].

Record DashboardStats := mkDashboardStats {
  scheduledSessions : nat;
  connectedMentors : nat;
  mentoringHours : Number.number;
  averageRating : Number.number
}.

(** [GET /api/dashboard/stats/:userId] *)
Definition dashboardStats (clock : Clock) (st : MemStorage) (userId : string)
    : DashboardStats :=
  let allSessions := getUserSessions st userId in
  let upcomingSessions := getUpcomingSessions clock st userId in
  let completedSessions :=
    filter (fun s => String.eqb (s_status s) "completed") allSessions in
  let connectedMentors := List.length (Set_of (map s_mentorId allSessions)) in
  let totalHours :=
    fold_left
      (fun sum s => Number.add sum (Number.div (Number.of_Z (s_duration s)) (Number.of_Z 60)))
      completedSessions (Number.of_Z 0) in
  {| scheduledSessions := List.length upcomingSessions;
     connectedMentors := connectedMentors;
     mentoringHours := Number.Math_round totalHours;
     (* the literal 4.8: the binary64 number nearest to 48/10 *)
     averageRating := Number.div (Number.of_Z 48) (Number.of_Z 10) |}.

(* ================================================================== *)
(** ** The specification's notions *)

(** The specification's "upcoming session" of a user at an instant. *)
Definition upcoming (now : timestamp) (userId : string) (s : Session) : bool :=
  (participant userId s
   && ((now <? s_scheduledAt s) && negb (String.eqb (s_status s) "cancelled")))%bool.

(** The sum of a list of numbers as [reduce((sum, x) => sum + x, 0)]
    computes it: from [0], left to right, each addition rounded. *)
Definition number_sum (xs : list Number.number) : Number.number :=
  fold_left Number.add xs (Number.of_Z 0).

Definition completed (s : Session) : bool := String.eqb (s_status s) "completed".

(** [s.duration / 60] *)
Definition session_hours (s : Session) : Number.number :=
  Number.div (Number.of_Z (s_duration s)) (Number.of_Z 60).

(** The hours of a user read in exact arithmetic: the rational sum of
    [duration / 60] over the completed sessions of the user, rounded to the
    nearest integer, a half going up (the specification's own example
    rounds 2.5 to 3). *)
Definition exact_hours (st : MemStorage) (userId : string) : Q :=
  fold_right Qplus (inject_Z 0)
    (map (fun s => Qdiv (inject_Z (s_duration s)) (inject_Z 60))
         (filter completed (getUserSessions st userId))).

Definition round_half_up (q : Q) : Z := Qfloor (Qplus q (Qmake 1 2)).

Definition exact_mentoringHours (st : MemStorage) (userId : string) : Z :=
  round_half_up (exact_hours st userId).

(** Stores and inputs used as concrete instances. *)
Definition a_session (id studentId mentorId : string) (scheduledAt : timestamp)
    (duration : Z) (status : string) : Session :=
  {| s_id := id; s_studentId := studentId; s_mentorId := mentorId;
     s_topic := "React Performance"; s_description := None;
     s_scheduledAt := scheduledAt; s_duration := duration; s_status := status;
     s_createdAt := Some 0 |}.

Definition empty_store : MemStorage :=
  mkMemStorage (JsMap.empty User) (JsMap.empty Session) (JsMap.empty KanbanItem).

Definition store_of_sessions (l : list Session) : MemStorage :=
  fold_left (fun st s => set_sessions st (JsMap.set (sessions st) (s_id s) s)) l
    empty_store.

(** The sessions of the specification's example. *)
Definition example_sessions : MemStorage :=
  store_of_sessions
    [ a_session "session1" "student1" "mentor1" 1000 60 "completed";
      a_session "session2" "student1" "mentor2" 2000 90 "completed";
      a_session "session3" "student1" "mentor1" 3000 30 "pending" ].

(** Three completed sessions of 90, 80 and 40 minutes: 3.5 hours. *)
Definition three_and_a_half_hours : MemStorage :=
  store_of_sessions
    [ a_session "session1" "student1" "mentor1" 1000 90 "completed";
      a_session "session2" "student1" "mentor2" 2000 80 "completed";
      a_session "session3" "student1" "mentor3" 3000 40 "completed" ].

(** A property that the insert object leaves out, or gives as [null]. *)
Definition absent {A : Type} (x : optional A) : Prop := x = undefined \/ x = null.

(** What "defaults to null" asks of a field: null when the input leaves the
    property out, the value of the input when it gives one that is not
    empty (a string that is not empty, a number that is not zero). *)
Definition defaulted {A : Type} (nonempty : A -> Prop) (x : optional A)
    (result : option A) : Prop :=
  (absent x -> result = None)
  /\ (forall a, x = value a -> nonempty a -> result = Some a).

(** What "defaults to [d]" asks of a status. *)
Definition defaulted_to (d : string) (x : optional string) (result : string) : Prop :=
  (absent x -> result = d)
  /\ (forall a, x = value a -> a <> "" -> result = a).

(** The insert object without its [hourlyRate] property. *)
Definition omit_hourlyRate (insertUser : InsertUser) : InsertUser := {|
  iu_email := iu_email insertUser;
  iu_password := iu_password insertUser;
  iu_firstName := iu_firstName insertUser;
  iu_lastName := iu_lastName insertUser;
  iu_userType := iu_userType insertUser;
  iu_area := iu_area insertUser;
  iu_bio := iu_bio insertUser;
  iu_skills := iu_skills insertUser;
  iu_hourlyRate := undefined;
  iu_avatarUrl := iu_avatarUrl insertUser
|}.

(** The invariant of the data model: one user per email. *)
Definition emails (st : MemStorage) : list string :=
  map u_email (JsMap.values (users st)).

Definition emails_distinct (st : MemStorage) : Prop := NoDup (emails st).

(** What a shallow merge does to one field: a field that the partial object
    names carries the new value, a field that it does not name is kept. *)
Definition merged {A : Type} (old : A) (new : option A) (result : A) : Prop :=
  match new with
  | Some v => result = v
  | None => result = old
  end.

Definition user_merged (user : User) (userData : PartialUser) (result : User) : Prop :=
  merged (u_id user) (pu_id userData) (u_id result)
  /\ merged (u_email user) (pu_email userData) (u_email result)
  /\ merged (u_password user) (pu_password userData) (u_password result)
  /\ merged (u_firstName user) (pu_firstName userData) (u_firstName result)
  /\ merged (u_lastName user) (pu_lastName userData) (u_lastName result)
  /\ merged (u_userType user) (pu_userType userData) (u_userType result)
  /\ merged (u_area user) (pu_area userData) (u_area result)
  /\ merged (u_bio user) (pu_bio userData) (u_bio result)
  /\ merged (u_skills user) (pu_skills userData) (u_skills result)
  /\ merged (u_hourlyRate user) (pu_hourlyRate userData) (u_hourlyRate result)
  /\ merged (u_rating user) (pu_rating userData) (u_rating result)
  /\ merged (u_reviewCount user) (pu_reviewCount userData) (u_reviewCount result)
  /\ merged (u_avatarUrl user) (pu_avatarUrl userData) (u_avatarUrl result)
  /\ merged (u_createdAt user) (pu_createdAt userData) (u_createdAt result).

Definition kanbanItem_merged (item : KanbanItem) (itemData : PartialKanbanItem)
    (result : KanbanItem) : Prop :=
  merged (k_id item) (pk_id itemData) (k_id result)
  /\ merged (k_title item) (pk_title itemData) (k_title result)
  /\ merged (k_description item) (pk_description itemData) (k_description result)
  /\ merged (k_type item) (pk_type itemData) (k_type result)
  /\ merged (k_status item) (pk_status itemData) (k_status result)
  /\ merged (k_points item) (pk_points itemData) (k_points result)
  /\ merged (k_assignee item) (pk_assignee itemData) (k_assignee result)
  /\ merged (k_priority item) (pk_priority itemData) (k_priority result)
  /\ merged (k_progress item) (pk_progress itemData) (k_progress result)
  /\ merged (k_createdAt item) (pk_createdAt itemData) (k_createdAt result).

(** [updateSessionStatus] names the one field [status]. *)
Definition session_status_merged (session : Session) (status : string)
    (result : Session) : Prop :=
  s_status result = status
  /\ s_id result = s_id session
  /\ s_studentId result = s_studentId session
  /\ s_mentorId result = s_mentorId session
  /\ s_topic result = s_topic session
  /\ s_description result = s_description session
  /\ s_scheduledAt result = s_scheduledAt session
  /\ s_duration result = s_duration session
  /\ s_createdAt result = s_createdAt session.

(** The representation invariant of the store: each of its three maps has
    one entry per key. *)
Definition store_wf (st : MemStorage) : Prop :=
  JsMap.wf (users st) /\ JsMap.wf (sessions st) /\ JsMap.wf (kanbanItems st).

(** More concrete instances. *)
Definition a_student (email : string) (hourlyRate : optional Z) : InsertUser := {|
  iu_email := email;
  iu_password := "password123";
  iu_firstName := "Joao";
  iu_lastName := "Silva";
  iu_userType := "student";
  iu_area := "Tecnologia";
  iu_bio := undefined;
  iu_skills := value ["JavaScript"; "HTML"; "CSS"];
  iu_hourlyRate := hourlyRate;
  iu_avatarUrl := null
|}.

(** A Kanban item given by title, type and points only. *)
Definition new_item (title type : string) (points : optional Z) : InsertKanbanItem := {|
  ik_title := title;
  ik_description := undefined;
  ik_type := type;
  ik_status := undefined;
  ik_points := points;
  ik_assignee := undefined;
  ik_priority := undefined;
  ik_progress := undefined
|}.

Definition no_change : PartialKanbanItem := {|
  pk_id := None; pk_title := None; pk_description := None; pk_type := None;
  pk_status := None; pk_points := None; pk_assignee := None; pk_priority := None;
  pk_progress := None; pk_createdAt := None
|}.

Definition no_user_change : PartialUser := {|
  pu_id := None; pu_email := None; pu_password := None; pu_firstName := None;
  pu_lastName := None; pu_userType := None; pu_area := None; pu_bio := None;
  pu_skills := None; pu_hourlyRate := None; pu_rating := None;
  pu_reviewCount := None; pu_avatarUrl := None; pu_createdAt := None
|}.

(** A store with one user, one session and one Kanban item. *)
Definition small_store : MemStorage :=
  let st1 := fst (createUser empty_store (a_student "joao@student.com" (value 0))
                    "student1" 0) in
  let st2 := fst (createSession st1
                    {| is_studentId := "student1"; is_mentorId := "mentor1";
                       is_topic := "React Performance"; is_description := undefined;
                       is_scheduledAt := 7200000; is_duration := 60;
                       is_status := value "confirmed" |}
                    "session1" 0) in
  fst (createKanbanItem st2 (new_item "Landing page" "story" (value 2)) "kanban10" 0).

(* ================================================================== *)
(** ** The initial store: [MemStorage.seedData] *)

(** The constructor fills the three maps.  [clock k] is what the [k]-th
    evaluation of [new Date()] or [Date.now()] returns, in the order in which
    the object literals evaluate them. *)

Definition seed_mentor1 (clock : Clock) : User := {|
  u_id := "mentor1";
  u_email := "ana@mentorconnect.com";
  u_password := "password123";
  u_firstName := "Ana";
  u_lastName := "Rodrigues";
  u_userType := "mentor";
  u_area := "Tecnologia";
  u_bio := Some "Especialista em React, Vue.js e desenvolvimento frontend moderno. 5+ anos de experiência em startups.";
  u_skills := Some ["React"; "JavaScript"; "CSS"; "TypeScript"; "Vue.js"];
  u_hourlyRate := Some 80;
  u_rating := Some 49;
  u_reviewCount := Some 23;
  u_avatarUrl := Some "https://images.unsplash.com/photo-1580489944761-15a19d654956?ixlib=rb-4.0.3&ixid=MnwxMjA3fDB8MHxwaG90by1wYWdlfHx8fGVufDB8fHx8&auto=format&fit=crop&w=150&h=150";
  u_createdAt := Some (clock 0%nat)
|}.

Definition seed_mentor2 (clock : Clock) : User := {|
  u_id := "mentor2";
  u_email := "roberto@mentorconnect.com";
  u_password := "password123";
  u_firstName := "Roberto";
  u_lastName := "Silva";
  u_userType := "mentor";
  u_area := "Negócios";
  u_bio := Some "Expert em estratégia de produto e growth. Ajudou 3 startups a escalar de 0 a 1M+ usuários.";
  u_skills := Some ["Product Strategy"; "Growth"; "Analytics"; "Leadership"];
  u_hourlyRate := Some 120;
  u_rating := Some 48;
  u_reviewCount := Some 31;
  u_avatarUrl := Some "https://images.unsplash.com/photo-1507003211169-0a1dd7228f2d?ixlib=rb-4.0.3&ixid=MnwxMjA3fDB8MHxwaG90by1wYWdlfHx8fGVufDB8fHx8&auto=format&fit=crop&w=150&h=150";
  u_createdAt := Some (clock 1%nat)
|}.

Definition seed_mentor3 (clock : Clock) : User := {|
  u_id := "mentor3";
  u_email := "marina@mentorconnect.com";
  u_password := "password123";
  u_firstName := "Marina";
  u_lastName := "Costa";
  u_userType := "mentor";
  u_area := "Design";
  u_bio := Some "Designer experiente em UX/UI para produtos digitais. Especialista em pesquisa de usuário e design systems.";
  u_skills := Some ["UX Design"; "Figma"; "Research"; "Prototyping"; "Design Systems"];
  u_hourlyRate := Some 100;
  u_rating := Some 50;
  u_reviewCount := Some 18;
  u_avatarUrl := Some "https://pixabay.com/get/geedf745d233a212f5c89ef71e170484f207c809c870ff0361c58185cf8efbd06edfc0c519e00accabea262039a7c9411b62f3b1e8d5f2ab06a3f8ffd963d7109_1280.jpg";
  u_createdAt := Some (clock 2%nat)
|}.

Definition seed_student (clock : Clock) : User := {|
  u_id := "student1";
  u_email := "joao@student.com";
  u_password := "password123";
  u_firstName := "João";
  u_lastName := "Silva";
  u_userType := "student";
  u_area := "Tecnologia";
  u_bio := Some "Estudante de Ciência da Computação buscando mentoria em desenvolvimento frontend.";
  u_skills := Some ["JavaScript"; "HTML"; "CSS"];
  u_hourlyRate := Some 0;
  u_rating := Some 0;
  u_reviewCount := Some 0;
  u_avatarUrl := Some "https://images.unsplash.com/photo-1507003211169-0a1dd7228f2d?ixlib=rb-4.0.3&ixid=MnwxMjA3fDB8MHxwaG90by1wYWdlfHx8fGVufDB8fHx8&auto=format&fit=crop&w=100&h=100";
  u_createdAt := Some (clock 3%nat)
|}.

Definition seed_session1 (clock : Clock) : Session := {|
  s_id := "session1";
  s_studentId := "student1";
  s_mentorId := "mentor1";
  s_topic := "React Performance";
  s_description := Some "Revisar técnicas de otimização em React";
  s_scheduledAt := clock 4%nat + 2 * 60 * 60 * 1000;
  s_duration := 60;
  s_status := "confirmed";
  s_createdAt := Some (clock 5%nat)
|}.

Definition seed_session2 (clock : Clock) : Session := {|
  s_id := "session2";
  s_studentId := "student1";
  s_mentorId := "mentor2";
  s_topic := "Product Strategy";
  s_description := Some "Discussão sobre estratégias de produto";
  s_scheduledAt := clock 6%nat + 24 * 60 * 60 * 1000;
  s_duration := 90;
  s_status := "pending";
  s_createdAt := Some (clock 7%nat)
|}.

Definition kanbanItemsData (clock : Clock) : list KanbanItem :=
  [ {| k_id := "kanban1";
       k_title := "Sistema de autenticação completo";
       k_description := Some "Como usuário, quero poder me cadastrar e fazer login";
       k_type := "epic";
       k_status := "backlog";
       k_points := Some 8;
       k_assignee := Some "João Silva";
       k_priority := Some "high";
       k_progress := Some 0;
       k_createdAt := Some (clock 8%nat) |};
     {| k_id := "kanban2";
       k_title := "Listagem de mentores com filtros";
       k_description := Some "Como estudante, quero filtrar mentores por área";
       k_type := "story";
       k_status := "backlog";
       k_points := Some 5;
       k_assignee := Some "Ana Santos";
       k_priority := Some "medium";
       k_progress := Some 0;
       k_createdAt := Some (clock 9%nat) |};
     {| k_id := "kanban3";
       k_title := "Sistema de avaliações";
       k_description := Some "Permitir avaliação de sessões de mentoria";
       k_type := "feature";
       k_status := "backlog";
       k_points := Some 3;
       k_assignee := Some "Carlos Lima";
       k_priority := Some "low";
       k_progress := Some 0;
       k_createdAt := Some (clock 10%nat) |};
     {| k_id := "kanban4";
       k_title := "Formulário de cadastro de usuário";
       k_description := Some "Criar formulário para estudantes se cadastrarem";
       k_type := "story";
       k_status := "todo";
       k_points := Some 3;
       k_assignee := Some "Maria Costa";
       k_priority := Some "high";
       k_progress := Some 0;
       k_createdAt := Some (clock 11%nat) |};
     {| k_id := "kanban5";
       k_title := "Design do dashboard principal";
       k_description := Some "Criar wireframes e protótipos";
       k_type := "task";
       k_status := "todo";
       k_points := Some 2;
       k_assignee := Some "Pedro Silva";
       k_priority := Some "medium";
       k_progress := Some 0;
       k_createdAt := Some (clock 12%nat) |};
     {| k_id := "kanban6";
       k_title := "API de autenticação";
       k_description := Some "Implementar login/logout com JWT";
       k_type := "story";
       k_status := "in_progress";
       k_points := Some 5;
       k_assignee := Some "João Silva";
       k_priority := Some "high";
       k_progress := Some 70;
       k_createdAt := Some (clock 13%nat) |};
     {| k_id := "kanban7";
       k_title := "Sistema de agendamento";
       k_description := Some "Permitir agendamento de sessões";
       k_type := "feature";
       k_status := "in_progress";
       k_points := Some 8;
       k_assignee := Some "Ana Santos";
       k_priority := Some "high";
       k_progress := Some 40;
       k_createdAt := Some (clock 14%nat) |};
     {| k_id := "kanban8";
       k_title := "Configuração inicial do projeto";
       k_description := Some "Setup React + Node.js + PostgreSQL";
       k_type := "setup";
       k_status := "done";
       k_points := Some 1;
       k_assignee := Some "João Silva";
       k_priority := Some "high";
       k_progress := Some 100;
       k_createdAt := Some (clock 15%nat) |};
     {| k_id := "kanban9";
       k_title := "Protótipo de alta fidelidade";
       k_description := Some "Design completo no Figma";
       k_type := "design";
       k_status := "done";
       k_points := Some 3;
       k_assignee := Some "Maria Costa";
       k_priority := Some "medium";
       k_progress := Some 100;
       k_createdAt := Some (clock 16%nat) |};
     {| k_id := "kanban10";
       k_title := "Landing page";
       k_description := Some "Página inicial com informações da plataforma";
       k_type := "story";
       k_status := "done";
       k_points := Some 2;
       k_assignee := Some "Pedro Silva";
       k_priority := Some "medium";
       k_progress := Some 100;
       k_createdAt := Some (clock 17%nat) |} ].

Definition seedData (clock : Clock) : MemStorage :=
  let users0 := JsMap.set (JsMap.empty User) (u_id (seed_mentor1 clock)) (seed_mentor1 clock) in
  let users1 := JsMap.set users0 (u_id (seed_mentor2 clock)) (seed_mentor2 clock) in
  let users2 := JsMap.set users1 (u_id (seed_mentor3 clock)) (seed_mentor3 clock) in
  let users3 := JsMap.set users2 (u_id (seed_student clock)) (seed_student clock) in
  let sessions0 :=
    JsMap.set (JsMap.empty Session) (s_id (seed_session1 clock)) (seed_session1 clock) in
  let sessions1 := JsMap.set sessions0 (s_id (seed_session2 clock)) (seed_session2 clock) in
  let items :=
    fold_left (fun m item => JsMap.set m (k_id item) item) (kanbanItemsData clock)
      (JsMap.empty KanbanItem) in
  mkMemStorage users3 sessions1 items.

(* ================================================================== *)
(** ** The other handlers of [server/routes.ts] *)

(** The routes that parse a body with a zod schema. *)
Inductive BodyRoute : Type :=
| AuthLogin
| AuthRegister
| Sessions
| Kanban.

(** A request to one of the routes.  A path parameter is what Express
    binds to [:id] or [:userId], a string that is not empty.  [Login] has
    the two strings of its body; [Register], [PostSession] and [PostKanban]
    have a body that passed the insert schema of the route; [InvalidBody] is
    a request to one of the four parsing routes whose body does not have the
    shape of the schema.  The body of [PatchKanban] has the shape of
    [Partial<KanbanItem>] and the status of [PatchSessionStatus] is a
    string, as the signatures of the storage methods declare them.
    [GetUser id] is [GET /api/users/<id>], whatever route it reaches. *)
Inductive Request : Type :=
| InvalidBody (route : BodyRoute)
| Login (email password : string)
| Register (userData : InsertUser)
| GetMentors
| GetUser (id : string)
| PostSession (sessionData : InsertSession)
| GetUserSessions (userId : string)
| GetUpcomingSessions (userId : string)
| PatchSessionStatus (id status : string)
| GetKanban
| PostKanban (itemData : InsertKanbanItem)
| PatchKanban (id : string) (body : PartialKanbanItem)
| DeleteKanban (id : string)
| GetDashboardStats (userId : string).

Inductive Body : Type :=
| BMessage (message : string)
| BAuth (user : UserWithoutPassword) (token : string)
| BUser (user : UserWithoutPassword)
| BUsers (mentors : list UserWithoutPassword)
| BSession (session : Session)
| BSessions (sessions : list Session)
| BItem (item : KanbanItem)
| BItems (items : list KanbanItem)
| BStats (stats : DashboardStats)
| BInvalid (message : string)
| BNone.

Record Response := mkResponse { res_status : Z; res_body : Body }.

(** [s.length]: the number of UTF-16 code units of a string, counted on
    its UTF-8 bytes.  A byte below 128 or a leading byte of a sequence of two
    or three bytes is one unit, a continuation byte none, and the leading
    byte of a sequence of four bytes two (a surrogate pair). *)
Definition utf16_units (c : Ascii.ascii) : nat :=
  let n := Ascii.nat_of_ascii c in
  if (n <? 128)%nat then 1%nat
  else if (n <? 192)%nat then 0%nat
  else if (n <? 240)%nat then 1%nat
  else 2%nat.

Fixpoint js_length (s : string) : nat :=
  match s with
  | EmptyString => 0%nat
  | String c r => (utf16_units c + js_length r)%nat
  end.

(** The answer of a handler whose [parse] throws a [ZodError]: status 400
    and the message; the [errors] property of the body lists zod's issues,
    which are the library's. *)
Definition invalid : Response := mkResponse 400 (BInvalid "Dados inválidos").

(** [loginSchema]: [email: z.string().email(...)] and
    [password: z.string().min(6, ...)].  [isEmail] is zod's test of an
    email address. *)
Definition loginSchema_accepts (isEmail : string -> bool) (email password : string)
    : bool :=
  (isEmail email && (6 <=? js_length password)%nat)%bool.

(** [POST /api/auth/login] *)
Definition login (isEmail : string -> bool) (st : MemStorage)
    (email password : string) : Response :=
  if loginSchema_accepts isEmail email password then
    match getUserByEmail st email with
    | Some user =>
        if String.eqb (u_password user) password
        then mkResponse 200 (BAuth (withoutPassword user) "mock-jwt-token")
        else mkResponse 401 (BMessage "Email ou senha incorretos")
    | None => mkResponse 401 (BMessage "Email ou senha incorretos")
    end
  else invalid.

Definition register_response (r : RegisterResponse) : Response :=
  match r with
  | Created201 user token => mkResponse 201 (BAuth user token)
  | Conflict409 message => mkResponse 409 (BMessage message)
  end.

(** One request against the store.  [uuid] is what [randomUUID()] returns
    if the handler creates an entity, [clock] the readings of [new Date()]
    during the request.  The routes are tried in the order of their
    registration, so [GET /api/users/mentors] is answered by the route of
    the mentors and never reaches [/api/users/:id].  The store never throws,
    so the 500 answers of the [catch] blocks are not reached. *)
Definition handle (isEmail : string -> bool) (st : MemStorage) (req : Request)
    (uuid : string) (clock : Clock) : MemStorage * Response :=
  match req with
  | InvalidBody _ => (st, invalid)
  | Login email password => (st, login isEmail st email password)
  | Register userData =>
      let (st', r) := register st userData uuid (clock 0%nat) in
      (st', register_response r)
  | GetMentors => (st, mkResponse 200 (BUsers (map withoutPassword (getMentors st))))
  | GetUser id =>
      if String.eqb id "mentors"
      then (st, mkResponse 200 (BUsers (map withoutPassword (getMentors st))))
      else
        match getUser st id with
        | None => (st, mkResponse 404 (BMessage "Usuário não encontrado"))
        | Some user => (st, mkResponse 200 (BUser (withoutPassword user)))
        end
  | PostSession sessionData =>
      let (st', session) := createSession st sessionData uuid (clock 0%nat) in
      (st', mkResponse 201 (BSession session))
  | GetUserSessions userId => (st, mkResponse 200 (BSessions (getUserSessions st userId)))
  | GetUpcomingSessions userId =>
      (st, mkResponse 200 (BSessions (getUpcomingSessions clock st userId)))
  | PatchSessionStatus id status =>
      match updateSessionStatus st id status with
      | (st', None) => (st', mkResponse 404 (BMessage "Sessão não encontrada"))
      | (st', Some session) => (st', mkResponse 200 (BSession session))
      end
  | GetKanban => (st, mkResponse 200 (BItems (getKanbanItems st)))
  | PostKanban itemData =>
      let (st', item) := createKanbanItem st itemData uuid (clock 0%nat) in
      (st', mkResponse 201 (BItem item))
  | PatchKanban id body =>
      match updateKanbanItem st id body with
      | (st', None) => (st', mkResponse 404 (BMessage "Item não encontrado"))
      | (st', Some item) => (st', mkResponse 200 (BItem item))
      end
  | DeleteKanban id =>
      match deleteKanbanItem st id with
      | (st', false) => (st', mkResponse 404 (BMessage "Item não encontrado"))
      | (st', true) => (st', mkResponse 204 BNone)
      end
  | GetDashboardStats userId => (st, mkResponse 200 (BStats (dashboardStats clock st userId)))
  end.

(** The stores that the server can be in: the seeded store, and what a
    request leaves of such a store. *)
Inductive reachable (isEmail : string -> bool) : MemStorage -> Prop :=
| reachable_seed (clock : Clock) : reachable isEmail (seedData clock)
| reachable_step (st : MemStorage) (req : Request) (uuid : string) (clock : Clock) :
    reachable isEmail st -> reachable isEmail (fst (handle isEmail st req uuid clock)).

(** A test of email addresses for the concrete instances: a string with an
    [@] in it. *)
Fixpoint has_at (s : string) : bool :=
  match s with
  | EmptyString => false
  | String c r => (Ascii.eqb c "@"%char || has_at r)%bool
  end.

(** Every entry of a map is filed under the id that the entity carries. *)
Definition keys_are_ids {V : Type} (id_of : V -> string) (m : JsMap.t V) : Prop :=
  Forall (fun e => id_of (snd e) = fst e) m.

Definition routes_invariant (st : MemStorage) : Prop :=
  store_wf st
  /\ emails_distinct st
  /\ keys_are_ids u_id (users st)
  /\ keys_are_ids s_id (sessions st).

(* ================================================================== *)
(** ** The Kanban board ([client/src/pages/kanban.tsx]) *)

Definition statusColumns : list string := ["backlog"; "todo"; "in_progress"; "done"].

Definition getItemsByStatus (items : list KanbanItem) (status : string)
    : list KanbanItem :=
  filter (fun item => String.eqb (k_status item) status) items.

(** The [Record<string, number>] that the [reduce] over the columns builds,
    as the list of its properties in the order of their assignment. *)
Definition getStatusCounts (items : list KanbanItem) : list (string * nat) :=
  map (fun column => (column, List.length (getItemsByStatus items column))) statusColumns.

Definition totalItems (items : list KanbanItem) : nat := List.length items.

Definition completedItems (items : list KanbanItem) : nat :=
  List.length (getItemsByStatus items "done").

(** The items that the board shows: those of its four columns. *)
Definition shown (items : list KanbanItem) : list KanbanItem :=
  flat_map (getItemsByStatus items) statusColumns.

(** An item whose status is none of the four columns. *)
Definition off_board (item : KanbanItem) : bool :=
  negb (existsb (String.eqb (k_status item)) statusColumns).

(** A stream of clock readings between two instants. *)
Definition between (lo hi : timestamp) (clock : Clock) : Prop :=
  forall k, lo <= clock k <= hi.

(* ================================================================== *)
(** ** Facts about [Map] *)

Module JsMapFacts.
Import JsMap.
Section Facts.
Variable V : Type.
Implicit Types (m : t V) (k : string) (v : V).

Lemma get_set_same m k v : get (set m k v) k = Some v.
Proof.
  induction m as [|[k' v'] r IH]; simpl.
  - now rewrite String.eqb_refl.
  - destruct (String.eqb k' k) eqn:E; simpl; now rewrite E.
Qed.

Lemma get_set_other m k k' v : k' <> k -> get (set m k v) k' = get m k'.
Proof.
  intros Hne. induction m as [|[k0 v0] r IH]; simpl.
  - destruct (String.eqb k k') eqn:E; [|reflexivity].
    apply String.eqb_eq in E. congruence.
  - destruct (String.eqb k0 k) eqn:E; simpl.
    + apply String.eqb_eq in E. subst k0.
      destruct (String.eqb k k') eqn:E'; [|reflexivity].
      apply String.eqb_eq in E'. congruence.
    + now rewrite IH.
Qed.

Lemma get_In_keys m k : get m k <> None <-> In k (keys m).
Proof.
  induction m as [|[k' v'] r IH]; simpl.
  - split; [congruence | tauto].
  - destruct (String.eqb k' k) eqn:E.
    + apply String.eqb_eq in E. split; [auto | discriminate].
    + apply String.eqb_neq in E. rewrite IH. tauto.
Qed.

Lemma get_None_keys m k : get m k = None <-> ~ In k (keys m).
Proof.
  rewrite <- get_In_keys. destruct (get m k); split; intros H;
    try congruence; try tauto. exfalso. apply H. discriminate.
Qed.

Lemma get_In_values m k v : get m k = Some v -> In v (values m).
Proof.
  induction m as [|[k' v'] r IH]; simpl; [discriminate|].
  destruct (String.eqb k' k); [intros [= ->]; now left | auto].
Qed.

Lemma get_remove_same m k : get (remove m k) k = None.
Proof.
  induction m as [|[k' v'] r IH]; simpl; [reflexivity|].
  destruct (String.eqb k' k) eqn:E; simpl; [assumption | now rewrite E].
Qed.

Lemma get_remove_other m k k' : k' <> k -> get (remove m k) k' = get m k'.
Proof.
  intros Hne. induction m as [|[k0 v0] r IH]; simpl; [reflexivity|].
  destruct (String.eqb k0 k) eqn:E; simpl.
  - apply String.eqb_eq in E. subst k0.
    destruct (String.eqb k k') eqn:E'; [|assumption].
    apply String.eqb_eq in E'. congruence.
  - now rewrite IH.
Qed.

Lemma has_remove m k : has (remove m k) k = false.
Proof. unfold has. now rewrite get_remove_same. Qed.

(** [set] on a key that is there keeps the keys; on a new key it adds
    it at the end. *)
Lemma keys_set m k v :
  keys (set m k v) = if has m k then keys m else keys m ++ [k].
Proof.
  unfold has. induction m as [|[k' v'] r IH]; simpl; [reflexivity|].
  destruct (String.eqb k' k) eqn:E; simpl; [reflexivity|].
  rewrite IH. now destruct (get r k).
Qed.

Lemma wf_set m k v : wf m -> wf (set m k v).
Proof.
  unfold wf. intros Hwf. rewrite keys_set. unfold has.
  destruct (get m k) eqn:G; [assumption|].
  apply get_None_keys in G.
  apply NoDup_rev in Hwf. rewrite <- (rev_involutive (keys m ++ [k])).
  apply NoDup_rev. rewrite rev_app_distr. simpl. constructor; [|assumption].
  now rewrite <- in_rev.
Qed.

Lemma wf_remove m k : wf m -> wf (remove m k).
Proof.
  unfold wf, keys, remove. induction m as [|[k' v'] r IH]; simpl; [auto|].
  intros Hnd. inversion Hnd as [|? ? Hnotin Hnd']; subst.
  destruct (String.eqb k' k); simpl; [auto|].
  constructor; [|auto].
  intros Hin. apply Hnotin. apply in_map_iff in Hin as [[k0 v0] [Hk Hin]].
  apply filter_In in Hin as [Hin _]. apply in_map_iff. now exists (k0, v0).
Qed.

(** On a map with one entry per key, [remove] takes out the one entry of
    the key and nothing else. *)
Lemma remove_wf m k v :
  wf m -> get m k = Some v ->
  exists before after,
    m = before ++ (k, v) :: after /\ remove m k = before ++ after.
Proof.
  unfold wf, keys. induction m as [|[k' v'] r IH]; simpl; [discriminate|].
  intros Hnd Hget. inversion Hnd as [|? ? Hnotin Hnd']; subst.
  destruct (String.eqb k' k) eqn:E; simpl.
  - apply String.eqb_eq in E. subst k'. injection Hget as ->.
    exists [], r. split; [reflexivity|]. simpl.
    apply forallb_filter_id, forallb_forall. intros [k0 v0] Hin. simpl.
    apply negb_true_iff, String.eqb_neq. intros ->.
    apply Hnotin. apply in_map_iff. now exists (k, v0).
  - destruct (IH Hnd' Hget) as (before & after & Hm & Hr).
    exists ((k', v') :: before), after. simpl. now rewrite <- Hm, Hr.
Qed.

Lemma In_values_set m k v x :
  In x (values (set m k v)) -> x = v \/ In x (values m).
Proof.
  induction m as [|[k' v'] r IH]; simpl.
  - intros [<-|[]]. now left.
  - destruct (String.eqb k' k); simpl.
    + intros [<-|H]; auto.
    + intros [<-|H]; auto. destruct (IH H); auto.
Qed.

(** A key that is not distinguished by [f] from the values already there
    cannot be created by [set]: [set] keeps [f] injective on the values. *)
Lemma NoDup_map_values_set (B : Type) (f : V -> B) m k v :
  NoDup (map f (values m)) ->
  ~ In (f v) (map f (values m)) ->
  NoDup (map f (values (set m k v))).
Proof.
  induction m as [|[k' v'] r IH]; simpl; intros Hnd Hnotin.
  - constructor; [tauto | constructor].
  - inversion Hnd as [|? ? Hv' Hnd']; subst.
    destruct (String.eqb k' k); simpl.
    + constructor; [tauto | assumption].
    + constructor; [|apply IH; tauto].
      intros Hin. apply in_map_iff in Hin as [x [Hfx Hx]].
      apply In_values_set in Hx as [->|Hx].
      * apply Hnotin. now left.
      * apply Hv'. rewrite <- Hfx. now apply in_map.
Qed.
End Facts.
End JsMapFacts.

(* ================================================================== *)
(** ** Queries over sessions *)

Lemma participant_iff userId s :
  participant userId s = true <-> s_studentId s = userId \/ s_mentorId s = userId.
Proof.
  unfold participant. rewrite orb_true_iff, !String.eqb_eq. tauto.
Qed.

Lemma upcoming_iff now userId s :
  upcoming now userId s = true <->
  (s_studentId s = userId \/ s_mentorId s = userId)
  /\ now < s_scheduledAt s /\ s_status s <> "cancelled".
Proof.
  unfold upcoming.
  rewrite !andb_true_iff, participant_iff, Z.ltb_lt, negb_true_iff, String.eqb_neq.
  tauto.
Qed.

(** With a clock that stands still the scan is a plain filter, whatever
    the number of readings already taken. *)
Lemma upcoming_scan_frozen now userId l :
  forall k, upcoming_scan (frozen now) k userId l = filter (upcoming now userId) l.
Proof.
  induction l as [|s r IH]; intros k; simpl; [reflexivity|].
  unfold upcoming at 1. destruct (participant userId s); simpl.
  - unfold frozen at 1.
    destruct ((now <? s_scheduledAt s) && negb (String.eqb (s_status s) "cancelled"))%bool;
      now rewrite IH.
  - apply IH.
Qed.

(** With any clock, a session that is returned was compared with one of the
    readings of the call and was later than it. *)
Lemma upcoming_scan_sound clock userId l :
  forall k s, In s (upcoming_scan clock k userId l) ->
    In s l /\ participant userId s = true /\ s_status s <> "cancelled"
    /\ exists j, (k <= j)%nat /\ clock j < s_scheduledAt s.
Proof.
  induction l as [|x r IH]; intros k s; simpl; [tauto|].
  destruct (participant userId x) eqn:P.
  - destruct ((clock k <? s_scheduledAt x) && negb (String.eqb (s_status x) "cancelled"))%bool eqn:C.
    + intros [<-|Hin].
      * apply andb_true_iff in C as [C1 C2].
        apply Z.ltb_lt in C1. apply negb_true_iff, String.eqb_neq in C2.
        repeat split; auto. exists k. split; [lia | assumption].
      * destruct (IH _ _ Hin) as (H1 & H2 & H3 & j & Hj & Hc).
        repeat split; auto. exists j. split; [lia | assumption].
    + intros Hin. destruct (IH _ _ Hin) as (H1 & H2 & H3 & j & Hj & Hc).
      repeat split; auto. exists j. split; [lia | assumption].
  - intros Hin. destruct (IH _ _ Hin) as (H1 & H2 & H3 & j & Hj & Hc).
    repeat split; auto. exists j. split; [lia | assumption].
Qed.

Lemma getUpcomingSessions_frozen now st userId :
  getUpcomingSessions (frozen now) st userId
    = filter (upcoming now userId) (JsMap.values (sessions st)).
Proof. unfold getUpcomingSessions. apply upcoming_scan_frozen. Qed.

(** C2. At every instant [now], for every store and every user id,
    [getUpcomingSessions] returns exactly the stored sessions in which the
    user takes part (as student or as mentor), that are scheduled strictly
    after [now] and whose status is not "cancelled": it is the filter of the
    stored sessions by that condition, so a cancelled session or one that is
    not in the future is never returned, and every other session of the user
    is. *)
Theorem getUpcomingSessions_exact (now : timestamp) (st : MemStorage) (userId : string) :
  getUpcomingSessions (frozen now) st userId
    = filter (upcoming now userId) (JsMap.values (sessions st))
  /\ forall s,
       In s (getUpcomingSessions (frozen now) st userId) <->
       In s (JsMap.values (sessions st))
       /\ (s_studentId s = userId \/ s_mentorId s = userId)
       /\ now < s_scheduledAt s
       /\ s_status s <> "cancelled".
Proof.
  rewrite getUpcomingSessions_frozen. split; [reflexivity|].
  intros s. rewrite filter_In, upcoming_iff. tauto.
Qed.

(* ================================================================== *)
(** ** Dashboard statistics *)

Lemma Set_add_In seen x y : In y (Set_add seen x) <-> y = x \/ In y seen.
Proof.
  induction seen as [|z r IH]; simpl.
  - intuition congruence.
  - destruct (String.eqb z x) eqn:E; simpl.
    + apply String.eqb_eq in E. subst z. intuition congruence.
    + rewrite IH. intuition congruence.
Qed.

Lemma Set_add_NoDup seen x : NoDup seen -> NoDup (Set_add seen x).
Proof.
  induction seen as [|z r IH]; simpl; intros Hnd.
  - constructor; [tauto | constructor].
  - destruct (String.eqb z x) eqn:E; [assumption|].
    apply String.eqb_neq in E. inversion Hnd; subst.
    constructor; [|auto]. rewrite Set_add_In. intuition congruence.
Qed.

Lemma fold_Set_add xs :
  forall seen, NoDup seen ->
    NoDup (fold_left Set_add xs seen)
    /\ forall y, In y (fold_left Set_add xs seen) <-> In y seen \/ In y xs.
Proof.
  induction xs as [|x r IH]; simpl; intros seen Hnd.
  - split; [assumption | tauto].
  - destruct (IH (Set_add seen x) (Set_add_NoDup x Hnd)) as [H1 H2].
    split; [assumption|]. intros y. rewrite H2, Set_add_In. intuition congruence.
Qed.

(** [new Set(xs)] holds every element of [xs] once. *)
Lemma Set_of_spec xs : NoDup (Set_of xs) /\ forall y, In y (Set_of xs) <-> In y xs.
Proof.
  destruct (@fold_Set_add xs [] (NoDup_nil _)) as [H1 H2].
  split; [exact H1|]. intros y. rewrite (H2 y). simpl. tauto.
Qed.

Lemma fold_left_map_add (f : Session -> Number.number) l :
  forall acc,
    fold_left (fun sum s => Number.add sum (f s)) l acc
      = fold_left Number.add (map f l) acc.
Proof. induction l as [|s r IH]; intros acc; simpl; [reflexivity | apply IH]. Qed.

Lemma dashboard_scheduledSessions now st userId :
  scheduledSessions (dashboardStats (frozen now) st userId)
    = List.length (filter (upcoming now userId) (JsMap.values (sessions st))).
Proof.
  unfold dashboardStats; simpl. now rewrite getUpcomingSessions_frozen.
Qed.

Lemma dashboard_connectedMentors clock st userId :
  exists mentors,
    NoDup mentors
    /\ (forall m, In m mentors <->
          exists s, In s (JsMap.values (sessions st))
                    /\ (s_studentId s = userId \/ s_mentorId s = userId)
                    /\ s_mentorId s = m)
    /\ connectedMentors (dashboardStats clock st userId) = List.length mentors.
Proof.
  exists (Set_of (map s_mentorId (getUserSessions st userId))).
  destruct (Set_of_spec (map s_mentorId (getUserSessions st userId))) as [Hnd Hin].
  split; [exact Hnd|]. split; [|reflexivity].
  intros m. rewrite Hin, in_map_iff. unfold getUserSessions.
  split.
  - intros [s [Hm Hs]]. apply filter_In in Hs as [Hs Hp].
    apply participant_iff in Hp. now exists s.
  - intros [s [Hs [Hp Hm]]]. exists s. split; [assumption|].
    apply filter_In. split; [assumption | now apply participant_iff].
Qed.

Lemma dashboard_mentoringHours clock st userId :
  mentoringHours (dashboardStats clock st userId)
    = Number.Math_round
        (number_sum (map session_hours (filter completed (getUserSessions st userId)))).
Proof.
  unfold dashboardStats, number_sum; simpl. f_equal.
  apply (fold_left_map_add session_hours).
Qed.

(** [Math.round] picks the integer [n] with [n - 1/2 <= x < n + 1/2]: for
    [x = (-1)^s * m * 2^e] with [e < 0], in integers scaled by [2^(1-e)]. *)
Lemma nearest_integer_spec s m e :
  e < 0 ->
  let n := Number.nearest_integer s m e in
  let x := cond_Zopp s (Zpos m) in
  (2 * n - 1) * 2 ^ (- e) <= 2 * x < (2 * n + 1) * 2 ^ (- e).
Proof.
  intros He n x. unfold n, Number.nearest_integer. fold x.
  rewrite Z.shiftr_div_pow2, Z.shiftl_mul_pow2 by lia.
  rewrite Z.mul_1_l.
  assert (Hp : 2 ^ (- e) = 2 * 2 ^ (- e - 1)).
  { replace (- e) with (Z.succ (- e - 1)) at 1 by lia. apply Z.pow_succ_r. lia. }
  assert (Hpos : 0 < 2 ^ (- e - 1)) by (apply Z.pow_pos_nonneg; lia).
  set (h := 2 ^ (- e - 1)) in *. rewrite Hp.
  pose proof (Z.div_mod (x + h) (2 * h) ltac:(lia)) as Hdm.
  pose proof (Z.mod_pos_bound (x + h) (2 * h) ltac:(lia)) as Hmod.
  set (q := (x + h) / (2 * h)) in *. nia.
Qed.

(** Read in exact arithmetic the hours of C1 fail: three completed sessions
    of 90, 80 and 40 minutes are 3.5 hours, which rounds to 4, while the
    handler adds 1.5, 1.3333333333333333 and 0.6666666666666666 to
    3.4999999999999996 and answers 3. *)
Lemma dashboard_hours_not_exact :
  exact_mentoringHours three_and_a_half_hours "student1" = 4
  /\ mentoringHours (dashboardStats (frozen 0) three_and_a_half_hours "student1")
       = Number.of_Z 3
  /\ mentoringHours (dashboardStats (frozen 0) three_and_a_half_hours "student1")
       <> Number.of_Z (exact_mentoringHours three_and_a_half_hours "student1").
Proof.
  split; [vm_compute; reflexivity|]. split; [vm_compute; reflexivity|].
  vm_compute. discriminate.
Qed.

(** C1 (amended). At every instant [now], for every store and user id, the
    statistics of the dashboard satisfy: [scheduledSessions] is the number of
    the user's upcoming sessions (participant, scheduled strictly after
    [now], not cancelled); [connectedMentors] is the number of distinct
    [mentorId] values over the sessions in which the user is student or
    mentor; [mentoringHours] is [Math.round] (nearest integer, a half going
    up) of the binary64 sum, accumulated from 0 in the order of the store, of
    the binary64 quotients [duration / 60] of the user's completed sessions.
    For a user whose sessions are a completed one of 60 minutes with mentor
    A, a completed one of 90 minutes with mentor B and a pending one of 30
    minutes with A, [connectedMentors] is 2 and [mentoringHours] is 3. *)
Theorem dashboardStats_spec :
  (forall (now : timestamp) (st : MemStorage) (userId : string),
     let stats := dashboardStats (frozen now) st userId in
     scheduledSessions stats
       = List.length (filter (upcoming now userId) (JsMap.values (sessions st)))
     /\ (exists mentors,
           NoDup mentors
           /\ (forall m, In m mentors <->
                 exists s, In s (JsMap.values (sessions st))
                           /\ (s_studentId s = userId \/ s_mentorId s = userId)
                           /\ s_mentorId s = m)
           /\ connectedMentors stats = List.length mentors)
     /\ mentoringHours stats
          = Number.Math_round
              (number_sum
                 (map session_hours (filter completed (getUserSessions st userId)))))
  /\ (forall (clock : Clock) (st : MemStorage) (userId : string) (s1 s2 s3 : Session),
        getUserSessions st userId = [s1; s2; s3] ->
        s_mentorId s1 <> s_mentorId s2 ->
        s_mentorId s3 = s_mentorId s1 ->
        s_duration s1 = 60 /\ s_status s1 = "completed" ->
        s_duration s2 = 90 /\ s_status s2 = "completed" ->
        s_duration s3 = 30 /\ s_status s3 = "pending" ->
        connectedMentors (dashboardStats clock st userId) = 2%nat
        /\ mentoringHours (dashboardStats clock st userId) = Number.of_Z 3).
Proof.
  split.
  - intros now st userId stats. split; [apply dashboard_scheduledSessions|].
    split; [apply dashboard_connectedMentors | apply dashboard_mentoringHours].
  - intros clock st userId s1 s2 s3 Hall Hne Hm3 [Hd1 Hs1] [Hd2 Hs2] [Hd3 Hs3].
    split.
    + unfold dashboardStats; simpl. rewrite Hall. simpl. rewrite Hm3.
      unfold Set_of; simpl.
      apply String.eqb_neq in Hne. rewrite Hne. simpl.
      now rewrite String.eqb_refl.
    + rewrite dashboard_mentoringHours, Hall. simpl.
      unfold completed. rewrite Hs1, Hs2, Hs3. simpl.
      unfold session_hours. rewrite Hd1, Hd2. vm_compute. reflexivity.
Qed.

Lemma dashboardStats_spec_witness :
  connectedMentors (dashboardStats (frozen 0) example_sessions "student1") = 2%nat
  /\ mentoringHours (dashboardStats (frozen 0) example_sessions "student1")
       = Number.of_Z 3.
Proof.
  apply (proj2 dashboardStats_spec (frozen 0) example_sessions "student1"
           (a_session "session1" "student1" "mentor1" 1000 60 "completed")
           (a_session "session2" "student1" "mentor2" 2000 90 "completed")
           (a_session "session3" "student1" "mentor1" 3000 30 "pending")).
  - reflexivity.
  - simpl. discriminate.
  - reflexivity.
  - split; reflexivity.
  - split; reflexivity.
  - split; reflexivity.
Defined.

(* ================================================================== *)
(** ** Creation *)

Lemma createUser_stored st insertUser id now :
  getUser (fst (createUser st insertUser id now)) id
    = Some (snd (createUser st insertUser id now)).
Proof. unfold getUser; simpl. apply JsMapFacts.get_set_same. Qed.


Lemma or_null_defaulted (A : Type) (truthy : A -> bool) (nonempty : A -> Prop)
    (x : optional A) :
  (forall a, nonempty a -> truthy a = true) ->
  defaulted nonempty x (or_null truthy x).
Proof.
  intros Htruthy. split.
  - intros [-> | ->]; reflexivity.
  - intros a -> Ha. simpl. now rewrite (Htruthy a Ha).
Qed.

Lemma truthy_string_nonempty (s : string) : s <> "" -> truthy_string s = true.
Proof. destruct s; [congruence | reflexivity]. Qed.

Lemma truthy_number_nonzero (n : Z) : n <> 0 -> truthy_number n = true.
Proof. intros Hn. unfold truthy_number. now apply negb_true_iff, Z.eqb_neq. Qed.

Lemma or_default_defaulted_to (d : string) (x : optional string) :
  defaulted_to d x (or_default x d).
Proof.
  split.
  - intros [-> | ->]; reflexivity.
  - intros a -> Ha. simpl. now rewrite (truthy_string_nonempty Ha).
Qed.




(** C10. For every input of [createUser] whose [hourlyRate] is 0, the user
    returned, which is the one stored, has a null hourly rate, and the
    result is the one of the same input without [hourlyRate]. *)
Theorem createUser_hourlyRate_zero (st : MemStorage) (insertUser : InsertUser)
    (id : string) (now : timestamp) :
  iu_hourlyRate insertUser = value 0 ->
  u_hourlyRate (snd (createUser st insertUser id now)) = None
  /\ (exists user, getUser (fst (createUser st insertUser id now)) id = Some user
                   /\ u_hourlyRate user = None)
  /\ createUser st insertUser id now = createUser st (omit_hourlyRate insertUser) id now.
Proof.
  intros Hzero.
  assert (Hrate : u_hourlyRate (snd (createUser st insertUser id now)) = None).
  { simpl. now rewrite Hzero. }
  split; [exact Hrate|]. split.
  - exists (snd (createUser st insertUser id now)).
    split; [apply createUser_stored | exact Hrate].
  - unfold createUser, omit_hourlyRate; simpl. now rewrite Hzero.
Qed.

Lemma createUser_hourlyRate_zero_witness :
  u_hourlyRate (snd (createUser empty_store (a_student "joao@student.com" (value 0))
                       "student1" 0)) = None.
Proof.
  exact (proj1 (@createUser_hourlyRate_zero empty_store
                  (a_student "joao@student.com" (value 0)) "student1" 0 eq_refl)).
Defined.

(** C3. [createKanbanItem] on an item given without description, assignee
    and status stores null, null and "backlog" for them; but for [points]
    it stores null, not 0, both when the input leaves [points] out and when
    the input gives 0. *)
Theorem createKanbanItem_points_null (st : MemStorage) (title type id : string)
    (now : timestamp) :
  let omitted := createKanbanItem st (new_item title type undefined) id now in
  let zero := createKanbanItem st (new_item title type (value 0)) id now in
  k_description (snd omitted) = None
  /\ k_assignee (snd omitted) = None
  /\ k_status (snd omitted) = "backlog"
  /\ k_points (snd omitted) = None
  /\ k_points (snd zero) = None
  /\ JsMap.get (kanbanItems (fst omitted)) id = Some (snd omitted)
  /\ JsMap.get (kanbanItems (fst zero)) id = Some (snd zero).
Proof.
  simpl. repeat (split; [reflexivity|]).
  split; apply JsMapFacts.get_set_same.
Qed.

(** C8. For every store, every create input of each kind and every id
    generated for it, looking the id up in the store that the creation
    leaves gives back the entity that the creation returned, which has the
    fields of the input and the fields set by the server; a session is also
    among the sessions of its student and of its mentor, and a Kanban item
    among the listed items.  The defaults are populated as far as the code
    goes: a user gets rating 0, review count 0 and null for what the input
    leaves out; a session gets a null description and the status "pending";
    a Kanban item gets a null description and assignee and the status
    "backlog", but its points, priority and progress are left null where
    the schema declares the defaults 0, "medium" and 0. *)
Theorem create_then_get (st : MemStorage) (insertUser : InsertUser)
    (insertSession : InsertSession) (insertItem : InsertKanbanItem)
    (id : string) (now : timestamp) :
  let cu := createUser st insertUser id now in
  let cs := createSession st insertSession id now in
  let ck := createKanbanItem st insertItem id now in
  (getUser (fst cu) id = Some (snd cu)
   /\ u_id (snd cu) = id /\ u_createdAt (snd cu) = Some now
   /\ u_email (snd cu) = iu_email insertUser
   /\ u_password (snd cu) = iu_password insertUser
   /\ u_firstName (snd cu) = iu_firstName insertUser
   /\ u_lastName (snd cu) = iu_lastName insertUser
   /\ u_userType (snd cu) = iu_userType insertUser
   /\ u_area (snd cu) = iu_area insertUser
   /\ u_rating (snd cu) = Some 0 /\ u_reviewCount (snd cu) = Some 0
   /\ defaulted (fun s => s <> "") (iu_bio insertUser) (u_bio (snd cu))
   /\ defaulted (fun _ => True) (iu_skills insertUser) (u_skills (snd cu))
   /\ defaulted (fun n => n <> 0) (iu_hourlyRate insertUser) (u_hourlyRate (snd cu))
   /\ defaulted (fun s => s <> "") (iu_avatarUrl insertUser) (u_avatarUrl (snd cu)))
  /\ (JsMap.get (sessions (fst cs)) id = Some (snd cs)
      /\ In (snd cs) (getUserSessions (fst cs) (is_studentId insertSession))
      /\ In (snd cs) (getUserSessions (fst cs) (is_mentorId insertSession))
      /\ s_id (snd cs) = id /\ s_createdAt (snd cs) = Some now
      /\ s_studentId (snd cs) = is_studentId insertSession
      /\ s_mentorId (snd cs) = is_mentorId insertSession
      /\ s_topic (snd cs) = is_topic insertSession
      /\ s_scheduledAt (snd cs) = is_scheduledAt insertSession
      /\ s_duration (snd cs) = is_duration insertSession
      /\ defaulted (fun s => s <> "") (is_description insertSession)
           (s_description (snd cs))
      /\ defaulted_to "pending" (is_status insertSession) (s_status (snd cs)))
  /\ (JsMap.get (kanbanItems (fst ck)) id = Some (snd ck)
      /\ In (snd ck) (getKanbanItems (fst ck))
      /\ k_id (snd ck) = id /\ k_createdAt (snd ck) = Some now
      /\ k_title (snd ck) = ik_title insertItem
      /\ k_type (snd ck) = ik_type insertItem
      /\ defaulted (fun s => s <> "") (ik_description insertItem)
           (k_description (snd ck))
      /\ defaulted (fun s => s <> "") (ik_assignee insertItem) (k_assignee (snd ck))
      /\ defaulted_to "backlog" (ik_status insertItem) (k_status (snd ck))
      /\ defaulted (fun n => n <> 0) (ik_points insertItem) (k_points (snd ck))
      /\ defaulted (fun s => s <> "") (ik_priority insertItem) (k_priority (snd ck))
      /\ defaulted (fun n => n <> 0) (ik_progress insertItem) (k_progress (snd ck)))
  /\ (absent (ik_points insertItem) -> k_points (snd ck) <> Some 0).
Proof.
  intros cu cs ck.
  assert (Hs : JsMap.get (sessions (fst cs)) id = Some (snd cs))
    by apply JsMapFacts.get_set_same.
  assert (Hk : JsMap.get (kanbanItems (fst ck)) id = Some (snd ck))
    by apply JsMapFacts.get_set_same.
  assert (Hstr : forall x : optional string,
             defaulted (fun s => s <> "") x (or_null truthy_string x))
    by (intros x; apply or_null_defaulted, truthy_string_nonempty).
  assert (Hnum : forall x : optional Z,
             defaulted (fun n => n <> 0) x (or_null truthy_number x))
    by (intros x; apply or_null_defaulted, truthy_number_nonzero).
  split; [|split; [|split]].
  - split; [apply createUser_stored|].
    do 10 (split; [reflexivity|]).
    split; [apply Hstr|]. split; [now apply or_null_defaulted|].
    split; [apply Hnum | apply Hstr].
  - split; [exact Hs|].
    apply JsMapFacts.get_In_values in Hs.
    split; [apply filter_In; split; [exact Hs | apply participant_iff; now left]|].
    split; [apply filter_In; split; [exact Hs | apply participant_iff; now right]|].
    do 7 (split; [reflexivity|]).
    split; [apply Hstr | apply or_default_defaulted_to].
  - split; [exact Hk|].
    split; [unfold getKanbanItems; now apply JsMapFacts.get_In_values in Hk|].
    do 4 (split; [reflexivity|]).
    split; [apply Hstr|]. split; [apply Hstr|].
    split; [apply or_default_defaulted_to|].
    split; [apply Hnum|]. split; [apply Hstr | apply Hnum].
  - intros Habs. unfold ck; simpl. destruct Habs as [-> | ->]; discriminate.
Qed.

Lemma create_then_get_witness :
  k_points (snd (createKanbanItem small_store (new_item "Landing page" "story" undefined)
                   "0b7e5a2c-1f43-4c8e-9d2a-6e1f3b5a7c90" 5))
  <> Some 0.
Proof.
  apply (proj2 (proj2 (proj2
           (create_then_get small_store (a_student "maria@student.com" undefined)
              (mkInsertSession "student1" "mentor1" "React" undefined 7200000 60 undefined)
              (new_item "Landing page" "story" undefined)
              "0b7e5a2c-1f43-4c8e-9d2a-6e1f3b5a7c90" 5)))).
  now left.
Defined.

(* ================================================================== *)
(** ** Registration and the uniqueness of emails *)

Lemma getUserByEmail_None st email :
  getUserByEmail st email = None <-> ~ In email (emails st).
Proof.
  unfold getUserByEmail, emails. split.
  - intros Hnone Hin. apply in_map_iff in Hin as [u [Hu Hin]].
    pose proof (find_none _ _ Hnone u Hin) as Hf. simpl in Hf.
    apply String.eqb_neq in Hf. congruence.
  - intros Hnotin.
    destruct (find _ _) as [u|] eqn:F; [|reflexivity].
    apply find_some in F as [Hin Heq]. apply String.eqb_eq in Heq.
    exfalso. apply Hnotin. apply in_map_iff. now exists u.
Qed.

Lemma register_conflict st userData id now :
  In (iu_email userData) (emails st) ->
  register st userData id now = (st, Conflict409 "Email já está em uso").
Proof.
  intros Hin. unfold register.
  destruct (getUserByEmail st (iu_email userData)) eqn:G; [reflexivity|].
  apply getUserByEmail_None in G. contradiction.
Qed.

Lemma register_email_stored st userData id now :
  In (iu_email userData) (emails (fst (register st userData id now))).
Proof.
  unfold register.
  destruct (getUserByEmail st (iu_email userData)) eqn:G; simpl.
  - destruct (In_dec string_dec (iu_email userData) (emails st)) as [Hin|Hout];
      [assumption|].
    apply getUserByEmail_None in Hout. congruence.
  - unfold emails; simpl.
    set (user := snd (createUser st userData id now)).
    change (iu_email userData) with (u_email user).
    apply in_map. apply JsMapFacts.get_In_values with (k := id).
    apply JsMapFacts.get_set_same.
Qed.

(** C5. One user per email is an invariant of registration: from a store
    whose users have distinct emails, a registration (the handler asks
    [getUserByEmail] and calls [createUser] only when it finds nobody)
    leaves a store whose users have distinct emails.  A registration with
    the email of a stored user is answered 409 and leaves the store as it
    is; so is a second registration with the email of a first one. *)
Theorem register_keeps_emails_distinct (st : MemStorage) (userData : InsertUser)
    (id : string) (now : timestamp) :
  emails_distinct st ->
  emails_distinct (fst (register st userData id now))
  /\ (In (iu_email userData) (emails st) ->
      register st userData id now = (st, Conflict409 "Email já está em uso"))
  /\ (forall (again : InsertUser) (id2 : string) (now2 : timestamp),
        iu_email again = iu_email userData ->
        let st1 := fst (register st userData id now) in
        register st1 again id2 now2 = (st1, Conflict409 "Email já está em uso")).
Proof.
  intros Hinv. split; [|split].
  - unfold register.
    destruct (getUserByEmail st (iu_email userData)) eqn:G; simpl; [assumption|].
    apply getUserByEmail_None in G.
    unfold emails_distinct, emails in *; simpl.
    apply JsMapFacts.NoDup_map_values_set; assumption.
  - apply register_conflict.
  - intros again id2 now2 Hsame st1. apply register_conflict.
    rewrite Hsame. apply register_email_stored.
Qed.

Lemma register_keeps_emails_distinct_witness :
  emails_distinct
    (fst (register small_store (a_student "maria@student.com" undefined)
            "0b7e5a2c-1f43-4c8e-9d2a-6e1f3b5a7c90" 1700000000000))
  /\ register small_store (a_student "joao@student.com" (value 30))
       "0b7e5a2c-1f43-4c8e-9d2a-6e1f3b5a7c90" 1700000000000
     = (small_store, Conflict409 "Email já está em uso").
Proof.
  assert (Hinv : emails_distinct small_store).
  { unfold emails_distinct. vm_compute. constructor; [simpl; tauto | constructor]. }
  split.
  - exact (proj1 (@register_keeps_emails_distinct small_store
                    (a_student "maria@student.com" undefined)
                    "0b7e5a2c-1f43-4c8e-9d2a-6e1f3b5a7c90" 1700000000000 Hinv)).
  - apply (proj1 (proj2 (@register_keeps_emails_distinct small_store
                    (a_student "joao@student.com" (value 30))
                    "0b7e5a2c-1f43-4c8e-9d2a-6e1f3b5a7c90" 1700000000000 Hinv))).
    vm_compute. now left.
Defined.

(* ================================================================== *)
(** ** Updates and deletion *)

Lemma merge_merged (A : Type) (old : A) (new : option A) : merged old new (merge old new).
Proof. destruct new; reflexivity. Qed.

Lemma merge_user_merged user userData : user_merged user userData (merge_user user userData).
Proof. unfold user_merged, merge_user; simpl. repeat split; apply merge_merged. Qed.

Lemma merge_kanbanItem_merged item itemData :
  kanbanItem_merged item itemData (merge_kanbanItem item itemData).
Proof. unfold kanbanItem_merged, merge_kanbanItem; simpl. repeat split; apply merge_merged. Qed.

Lemma updateUser_unknown st id userData :
  getUser st id = None -> updateUser st id userData = (st, None).
Proof. unfold getUser, updateUser. now intros ->. Qed.

Lemma updateUser_known st id userData user :
  getUser st id = Some user ->
  snd (updateUser st id userData) = Some (merge_user user userData)
  /\ getUser (fst (updateUser st id userData)) id = Some (merge_user user userData).
Proof.
  unfold getUser, updateUser. intros ->. simpl.
  split; [reflexivity | apply JsMapFacts.get_set_same].
Qed.

Lemma updateSessionStatus_unknown st id status :
  JsMap.get (sessions st) id = None -> updateSessionStatus st id status = (st, None).
Proof. unfold updateSessionStatus. now intros ->. Qed.

Lemma updateSessionStatus_known st id status session :
  JsMap.get (sessions st) id = Some session ->
  exists updated,
    snd (updateSessionStatus st id status) = Some updated
    /\ JsMap.get (sessions (fst (updateSessionStatus st id status))) id = Some updated
    /\ session_status_merged session status updated.
Proof.
  unfold updateSessionStatus. intros ->. simpl.
  eexists. split; [reflexivity|]. split; [apply JsMapFacts.get_set_same|].
  unfold session_status_merged; simpl. repeat split.
Qed.

Lemma updateKanbanItem_unknown st id itemData :
  JsMap.get (kanbanItems st) id = None -> updateKanbanItem st id itemData = (st, None).
Proof. unfold updateKanbanItem. now intros ->. Qed.

Lemma updateKanbanItem_known st id itemData item :
  JsMap.get (kanbanItems st) id = Some item ->
  snd (updateKanbanItem st id itemData) = Some (merge_kanbanItem item itemData)
  /\ JsMap.get (kanbanItems (fst (updateKanbanItem st id itemData))) id
       = Some (merge_kanbanItem item itemData).
Proof.
  unfold updateKanbanItem. intros ->. simpl.
  split; [reflexivity | apply JsMapFacts.get_set_same].
Qed.

(** The three updates touch one key of one map. *)
Lemma updateUser_frame st id userData :
  let st' := fst (updateUser st id userData) in
  (forall id', id' <> id -> getUser st' id' = getUser st id')
  /\ JsMap.keys (users st') = JsMap.keys (users st)
  /\ sessions st' = sessions st /\ kanbanItems st' = kanbanItems st.
Proof.
  unfold updateUser, getUser.
  destruct (JsMap.get (users st) id) eqn:G; simpl; [|tauto].
  split; [intros id' Hne; now apply JsMapFacts.get_set_other|].
  split; [|tauto]. rewrite JsMapFacts.keys_set. unfold JsMap.has. now rewrite G.
Qed.

Lemma updateSessionStatus_frame st id status :
  let st' := fst (updateSessionStatus st id status) in
  (forall id', id' <> id -> JsMap.get (sessions st') id' = JsMap.get (sessions st) id')
  /\ JsMap.keys (sessions st') = JsMap.keys (sessions st)
  /\ users st' = users st /\ kanbanItems st' = kanbanItems st.
Proof.
  unfold updateSessionStatus.
  destruct (JsMap.get (sessions st) id) eqn:G; simpl; [|tauto].
  split; [intros id' Hne; now apply JsMapFacts.get_set_other|].
  split; [|tauto]. rewrite JsMapFacts.keys_set. unfold JsMap.has. now rewrite G.
Qed.

Lemma updateKanbanItem_frame st id itemData :
  let st' := fst (updateKanbanItem st id itemData) in
  (forall id', id' <> id ->
     JsMap.get (kanbanItems st') id' = JsMap.get (kanbanItems st) id')
  /\ JsMap.keys (kanbanItems st') = JsMap.keys (kanbanItems st)
  /\ users st' = users st /\ sessions st' = sessions st.
Proof.
  unfold updateKanbanItem.
  destruct (JsMap.get (kanbanItems st) id) eqn:G; simpl; [|tauto].
  split; [intros id' Hne; now apply JsMapFacts.get_set_other|].
  split; [|tauto]. rewrite JsMapFacts.keys_set. unfold JsMap.has. now rewrite G.
Qed.

(** C6. For every store, each of [updateUser], [updateSessionStatus] and
    [updateKanbanItem] is a total function of its arguments, it raises
    nothing: on an id that the store does not have it returns the absent
    value and the store as it was; on an id that the store has it returns
    the updated entity, that is the stored entity with the fields of the
    partial object (the status for a session) written over it, and this
    entity is then the one stored under the id. *)
Theorem update_absent_or_updated (st : MemStorage) (id : string)
    (userData : PartialUser) (status : string) (itemData : PartialKanbanItem) :
  (getUser st id = None -> updateUser st id userData = (st, None))
  /\ (JsMap.get (sessions st) id = None ->
      updateSessionStatus st id status = (st, None))
  /\ (JsMap.get (kanbanItems st) id = None ->
      updateKanbanItem st id itemData = (st, None))
  /\ (forall user, getUser st id = Some user ->
        exists updated,
          snd (updateUser st id userData) = Some updated
          /\ getUser (fst (updateUser st id userData)) id = Some updated
          /\ user_merged user userData updated)
  /\ (forall session, JsMap.get (sessions st) id = Some session ->
        exists updated,
          snd (updateSessionStatus st id status) = Some updated
          /\ JsMap.get (sessions (fst (updateSessionStatus st id status))) id
               = Some updated
          /\ session_status_merged session status updated)
  /\ (forall item, JsMap.get (kanbanItems st) id = Some item ->
        exists updated,
          snd (updateKanbanItem st id itemData) = Some updated
          /\ JsMap.get (kanbanItems (fst (updateKanbanItem st id itemData))) id
               = Some updated
          /\ kanbanItem_merged item itemData updated).
Proof.
  split; [apply updateUser_unknown|].
  split; [apply updateSessionStatus_unknown|].
  split; [apply updateKanbanItem_unknown|].
  split; [|split].
  - intros user Hu. exists (merge_user user userData).
    destruct (updateUser_known st id userData Hu) as [H1 H2].
    split; [exact H1|]. split; [exact H2 | apply merge_user_merged].
  - intros session Hs. now apply updateSessionStatus_known.
  - intros item Hk. exists (merge_kanbanItem item itemData).
    destruct (updateKanbanItem_known st id itemData Hk) as [H1 H2].
    split; [exact H1|]. split; [exact H2 | apply merge_kanbanItem_merged].
Qed.

Lemma update_absent_or_updated_witness :
  updateKanbanItem small_store "no-such-id" no_change = (small_store, None)
  /\ exists updated,
       snd (updateSessionStatus small_store "session1" "cancelled") = Some updated
       /\ JsMap.get
            (sessions (fst (updateSessionStatus small_store "session1" "cancelled")))
            "session1" = Some updated
       /\ s_status updated = "cancelled"
       /\ s_duration updated = 60.
Proof.
  split.
  - exact (proj1 (proj2 (proj2
             (@update_absent_or_updated small_store "no-such-id" no_user_change
                "cancelled" no_change))) eq_refl).
  - destruct (proj1 (proj2 (proj2 (proj2 (proj2
             (@update_absent_or_updated small_store "session1" no_user_change
                "cancelled" no_change)))))
             (a_session "session1" "student1" "mentor1" 7200000 60 "confirmed")
             eq_refl) as (updated & H1 & H2 & H3).
    exists updated. split; [exact H1|]. split; [exact H2|].
    destruct H3 as (Hst & _ & _ & _ & _ & _ & _ & Hd & _).
    split; [exact Hst | exact Hd].
Defined.

(** C9. An update is a shallow merge that leaves the rest alone: for every
    store, when the id holds an entity, the entity that [updateUser] (or
    [updateKanbanItem]) returns and stores has, field by field, the value of
    the partial object where the partial object names the field and the
    stored value where it does not; [updateSessionStatus] sets the status
    and keeps every other field; the entities under other ids, the keys and
    the two other maps are unchanged. *)
Theorem update_shallow_merge_frame (st : MemStorage) (id : string)
    (userData : PartialUser) (status : string) (itemData : PartialKanbanItem) :
  (forall user, getUser st id = Some user ->
     exists updated,
       snd (updateUser st id userData) = Some updated
       /\ getUser (fst (updateUser st id userData)) id = Some updated
       /\ user_merged user userData updated)
  /\ (forall session, JsMap.get (sessions st) id = Some session ->
        exists updated,
          snd (updateSessionStatus st id status) = Some updated
          /\ JsMap.get (sessions (fst (updateSessionStatus st id status))) id
               = Some updated
          /\ session_status_merged session status updated)
  /\ (forall item, JsMap.get (kanbanItems st) id = Some item ->
        exists updated,
          snd (updateKanbanItem st id itemData) = Some updated
          /\ JsMap.get (kanbanItems (fst (updateKanbanItem st id itemData))) id
               = Some updated
          /\ kanbanItem_merged item itemData updated)
  /\ (let st' := fst (updateUser st id userData) in
      (forall id', id' <> id -> getUser st' id' = getUser st id')
      /\ JsMap.keys (users st') = JsMap.keys (users st)
      /\ sessions st' = sessions st /\ kanbanItems st' = kanbanItems st)
  /\ (let st' := fst (updateSessionStatus st id status) in
      (forall id', id' <> id ->
         JsMap.get (sessions st') id' = JsMap.get (sessions st) id')
      /\ JsMap.keys (sessions st') = JsMap.keys (sessions st)
      /\ users st' = users st /\ kanbanItems st' = kanbanItems st)
  /\ (let st' := fst (updateKanbanItem st id itemData) in
      (forall id', id' <> id ->
         JsMap.get (kanbanItems st') id' = JsMap.get (kanbanItems st) id')
      /\ JsMap.keys (kanbanItems st') = JsMap.keys (kanbanItems st)
      /\ users st' = users st /\ sessions st' = sessions st).
Proof.
  split; [|split; [|split; [|split; [|split]]]].
  - intros user Hu. exists (merge_user user userData).
    destruct (updateUser_known st id userData Hu) as [H1 H2].
    split; [exact H1|]. split; [exact H2 | apply merge_user_merged].
  - intros session Hs. now apply updateSessionStatus_known.
  - intros item Hk. exists (merge_kanbanItem item itemData).
    destruct (updateKanbanItem_known st id itemData Hk) as [H1 H2].
    split; [exact H1|]. split; [exact H2 | apply merge_kanbanItem_merged].
  - apply updateUser_frame.
  - apply updateSessionStatus_frame.
  - apply updateKanbanItem_frame.
Qed.

Lemma update_shallow_merge_frame_witness :
  exists updated,
    snd (updateSessionStatus small_store "session1" "completed") = Some updated
    /\ JsMap.get
         (sessions (fst (updateSessionStatus small_store "session1" "completed")))
         "session1" = Some updated
    /\ session_status_merged
         (a_session "session1" "student1" "mentor1" 7200000 60 "confirmed")
         "completed" updated.
Proof.
  exact (proj1 (proj2
           (@update_shallow_merge_frame small_store "session1" no_user_change
              "completed" no_change))
           (a_session "session1" "student1" "mentor1" 7200000 60 "confirmed")
           eq_refl).
Defined.

Lemma deleteKanbanItem_result st id :
  snd (deleteKanbanItem st id) = JsMap.has (kanbanItems st) id.
Proof. reflexivity. Qed.

(** C7. For every store and id, [deleteKanbanItem] returns true exactly
    when the store holds an item under the id; afterwards no item is under
    the id, the items under other ids, the users and the sessions are as
    they were, and a second [deleteKanbanItem] of the id returns false. *)
Theorem deleteKanbanItem_spec (st : MemStorage) (id : string) :
  let st' := fst (deleteKanbanItem st id) in
  (snd (deleteKanbanItem st id) = true <->
     exists item, JsMap.get (kanbanItems st) id = Some item)
  /\ JsMap.get (kanbanItems st') id = None
  /\ (forall id', id' <> id ->
        JsMap.get (kanbanItems st') id' = JsMap.get (kanbanItems st) id')
  /\ users st' = users st /\ sessions st' = sessions st
  /\ snd (deleteKanbanItem st' id) = false.
Proof.
  intros st'. split; [|split; [|split; [|split; [|split]]]].
  - rewrite deleteKanbanItem_result. unfold JsMap.has.
    destruct (JsMap.get (kanbanItems st) id) as [item|].
    + split; [now exists item | reflexivity].
    + split; [discriminate | now intros [item H]].
  - apply JsMapFacts.get_remove_same.
  - intros id' Hne. now apply JsMapFacts.get_remove_other.
  - reflexivity.
  - reflexivity.
  - rewrite deleteKanbanItem_result. apply JsMapFacts.has_remove.
Qed.

Lemma deleteKanbanItem_spec_witness :
  snd (deleteKanbanItem small_store "kanban10") = true
  /\ snd (deleteKanbanItem (fst (deleteKanbanItem small_store "kanban10")) "kanban10")
     = false.
Proof.
  destruct (deleteKanbanItem_spec small_store "kanban10")
    as (H1 & _ & _ & _ & _ & H6).
  split; [|exact H6].
  apply H1. eexists. reflexivity.
Defined.

(* ================================================================== *)
(** ** The representation invariant *)

Lemma empty_store_wf : store_wf empty_store.
Proof. repeat split; constructor. Qed.

Lemma createUser_wf st insertUser id now :
  store_wf st -> store_wf (fst (createUser st insertUser id now)).
Proof. intros (Hu & Hs & Hk). repeat split; simpl; auto using JsMapFacts.wf_set. Qed.

Lemma createSession_wf st insertSession id now :
  store_wf st -> store_wf (fst (createSession st insertSession id now)).
Proof. intros (Hu & Hs & Hk). repeat split; simpl; auto using JsMapFacts.wf_set. Qed.

Lemma createKanbanItem_wf st insertItem id now :
  store_wf st -> store_wf (fst (createKanbanItem st insertItem id now)).
Proof. intros (Hu & Hs & Hk). repeat split; simpl; auto using JsMapFacts.wf_set. Qed.

Lemma updateUser_wf st id userData :
  store_wf st -> store_wf (fst (updateUser st id userData)).
Proof.
  intros (Hu & Hs & Hk). unfold updateUser.
  destruct (JsMap.get (users st) id); repeat split; simpl;
    auto using JsMapFacts.wf_set.
Qed.

Lemma updateSessionStatus_wf st id status :
  store_wf st -> store_wf (fst (updateSessionStatus st id status)).
Proof.
  intros (Hu & Hs & Hk). unfold updateSessionStatus.
  destruct (JsMap.get (sessions st) id); repeat split; simpl;
    auto using JsMapFacts.wf_set.
Qed.

Lemma updateKanbanItem_wf st id itemData :
  store_wf st -> store_wf (fst (updateKanbanItem st id itemData)).
Proof.
  intros (Hu & Hs & Hk). unfold updateKanbanItem.
  destruct (JsMap.get (kanbanItems st) id); repeat split; simpl;
    auto using JsMapFacts.wf_set.
Qed.

Lemma deleteKanbanItem_wf st id :
  store_wf st -> store_wf (fst (deleteKanbanItem st id)).
Proof.
  intros (Hu & Hs & Hk). repeat split; simpl; auto using JsMapFacts.wf_remove.
Qed.

Lemma register_wf st userData id now :
  store_wf st -> store_wf (fst (register st userData id now)).
Proof.
  intros Hwf. unfold register.
  destruct (getUserByEmail st (iu_email userData)); [assumption|].
  now apply createUser_wf.
Qed.

(* ================================================================== *)
(** ** More on [Map]: where [set] and [remove] act *)

Module JsMapSplit.
Import JsMap.
Section Split.
Variable V : Type.
Implicit Types (m : t V) (k : string) (v : V).

Lemma get_In m k v : get m k = Some v -> In (k, v) m.
Proof.
  induction m as [|[k' v'] r IH]; simpl; [discriminate|].
  destruct (String.eqb k' k) eqn:E.
  - apply String.eqb_eq in E. intros [= ->]. subst. now left.
  - auto.
Qed.

(** [set] on a key of the map replaces the value where the key stands. *)
Lemma set_split m k v :
  get m k = Some v ->
  exists before after,
    m = before ++ (k, v) :: after
    /\ forall v', set m k v' = before ++ (k, v') :: after.
Proof.
  induction m as [|[k' v0] r IH]; simpl; [discriminate|].
  destruct (String.eqb k' k) eqn:E.
  - apply String.eqb_eq in E. subst k'. intros [= ->].
    exists [], r. split; [reflexivity|]. intros v'. reflexivity.
  - intros Hget. destruct (IH Hget) as (before & after & Hm & Hset).
    exists ((k', v0) :: before), after. split; [simpl; now rewrite <- Hm|].
    intros v'. simpl. now rewrite Hset.
Qed.

(** [set] on a new key adds the entry at the end. *)
Lemma set_fresh m k v : get m k = None -> set m k v = m ++ [(k, v)].
Proof.
  induction m as [|[k' v0] r IH]; simpl; [reflexivity|].
  destruct (String.eqb k' k); [discriminate|]. intros Hget. now rewrite IH.
Qed.


Lemma Forall_set (P : string * V -> Prop) m k v :
  Forall P m -> P (k, v) -> Forall P (set m k v).
Proof.
  intros Hall Hkv. induction m as [|[k' v0] r IH]; simpl.
  - constructor; [assumption | constructor].
  - inversion Hall; subst. destruct (String.eqb k' k) eqn:E.
    + apply String.eqb_eq in E. subst k'. constructor; assumption.
    + constructor; auto.
Qed.

Lemma Forall_remove (P : string * V -> Prop) m k : Forall P m -> Forall P (remove m k).
Proof.
  intros Hall. apply Forall_forall. intros e He.
  apply filter_In in He as [He _]. revert e He. now apply Forall_forall.
Qed.

Lemma keys_set_incl m k v : incl (keys m) (keys (set m k v)).
Proof.
  rewrite JsMapFacts.keys_set. destruct (has m k); [apply incl_refl|].
  apply incl_appl, incl_refl.
Qed.

(** [find] after [set], when the new value is the only one that matches. *)
Lemma find_values_set (p : V -> bool) m k v :
  p v = true -> (forall x, In x (values m) -> p x = false) ->
  find p (values (set m k v)) = Some v.
Proof.
  intros Hv. induction m as [|[k' v0] r IH]; simpl; intros Hnone.
  - now rewrite Hv.
  - destruct (String.eqb k' k); simpl.
    + now rewrite Hv.
    + rewrite (Hnone v0) by now left. apply IH. intros x Hx. apply Hnone. now right.
Qed.
End Split.
End JsMapSplit.

Lemma NoDup_map_inj (A B : Type) (f : A -> B) (l : list A) (a b : A) :
  NoDup (map f l) -> In a l -> In b l -> f a = f b -> a = b.
Proof.
  induction l as [|x r IH]; simpl; [tauto|].
  intros Hnd Ha Hb Hf. inversion Hnd as [|? ? Hx Hr]; subst.
  destruct Ha as [<-|Ha], Hb as [<-|Hb]; auto.
  - exfalso. apply Hx. rewrite Hf. now apply in_map.
  - exfalso. apply Hx. rewrite <- Hf. now apply in_map.
Qed.

(* ================================================================== *)
(** ** Users: lookup by email, mentors and students *)

(** X1. [getUserByEmail] answers with a stored user that has exactly the
    email asked for, and answers absent exactly when no stored user has it;
    when the emails of the store are pairwise distinct the user it answers
    with is the only one with that email. *)
Theorem getUserByEmail_spec (st : MemStorage) (email : string) :
  (forall user, getUserByEmail st email = Some user ->
     In user (JsMap.values (users st)) /\ u_email user = email)
  /\ (getUserByEmail st email = None <->
      forall user, In user (JsMap.values (users st)) -> u_email user <> email)
  /\ (emails_distinct st ->
      forall user other, getUserByEmail st email = Some user ->
        In other (JsMap.values (users st)) -> u_email other = email -> other = user).
Proof.
  assert (Hsome : forall user, getUserByEmail st email = Some user ->
             In user (JsMap.values (users st)) /\ u_email user = email).
  { intros user Hf. apply find_some in Hf as [Hin Heq].
    now apply String.eqb_eq in Heq. }
  split; [exact Hsome|]. split.
  - rewrite getUserByEmail_None. unfold emails. split.
    + intros Hnot user Hin Heq. apply Hnot. rewrite <- Heq. now apply in_map.
    + intros Hall Hin. apply in_map_iff in Hin as [u [Hu Hin]]. now apply (Hall u).
  - intros Hnd user other Hf Hin Hmail.
    destruct (Hsome user Hf) as [Hin' Hmail'].
    apply (@NoDup_map_inj _ _ u_email (JsMap.values (users st))); auto. congruence.
Qed.

Lemma getUserByEmail_spec_witness :
  getUserByEmail small_store "joao@student.com"
    = Some (snd (createUser empty_store (a_student "joao@student.com" (value 0))
                   "student1" 0)).
Proof.
  assert (Hnd : emails_distinct small_store).
  { unfold emails_distinct. vm_compute. constructor; [simpl; tauto | constructor]. }
  destruct (getUserByEmail small_store "joao@student.com") as [user|] eqn:G;
    [|vm_compute in G; discriminate].
  f_equal. symmetry.
  apply (proj2 (proj2 (getUserByEmail_spec small_store "joao@student.com"))
           Hnd user _ G).
  - vm_compute. now left.
  - reflexivity.
Defined.

Lemma values_app (V : Type) (a b : JsMap.t V) :
  JsMap.values (a ++ b) = JsMap.values a ++ JsMap.values b.
Proof. apply map_app. Qed.

(** X2. When the id that [createUser] is given is new to the store, the new
    user goes to the end of [getMentors] exactly when its [userType] is
    "mentor" and to the end of [getStudents] exactly when it is "student";
    the lists are otherwise as they were.  The comparison is exact: a user
    of any other type, "Mentor" say, is in neither list. *)
Theorem createUser_then_getMentors (st : MemStorage) (insertUser : InsertUser)
    (id : string) (now : timestamp) :
  JsMap.get (users st) id = None ->
  let st' := fst (createUser st insertUser id now) in
  let user := snd (createUser st insertUser id now) in
  getMentors st'
    = getMentors st ++ (if String.eqb (iu_userType insertUser) "mentor" then [user] else [])
  /\ getStudents st'
     = getStudents st
         ++ (if String.eqb (iu_userType insertUser) "student" then [user] else [])
  /\ (iu_userType insertUser <> "mentor" -> iu_userType insertUser <> "student" ->
      getMentors st' = getMentors st /\ getStudents st' = getStudents st).
Proof.
  intros Hfresh st' user.
  assert (Hvals : JsMap.values (users st') = JsMap.values (users st) ++ [user]).
  { unfold st'; simpl. rewrite JsMapSplit.set_fresh by exact Hfresh. apply values_app. }
  assert (Hm : getMentors st'
               = getMentors st
                   ++ (if String.eqb (iu_userType insertUser) "mentor" then [user] else [])).
  { unfold getMentors. rewrite Hvals, filter_app. reflexivity. }
  assert (Hs : getStudents st'
               = getStudents st
                   ++ (if String.eqb (iu_userType insertUser) "student" then [user] else [])).
  { unfold getStudents. rewrite Hvals, filter_app. reflexivity. }
  split; [exact Hm|]. split; [exact Hs|].
  intros Hnm Hns. rewrite Hm, Hs.
  apply String.eqb_neq in Hnm, Hns. rewrite Hnm, Hns, !app_nil_r. now split.
Qed.

Lemma createUser_then_getMentors_witness :
  getMentors
    (fst (createUser small_store
            (mkInsertUser "ana@mentorconnect.com" "password123" "Ana" "Rodrigues"
               "mentor" "Tecnologia" undefined undefined (value 80) undefined)
            "0b7e5a2c-1f43-4c8e-9d2a-6e1f3b5a7c90" 1700000000000))
  = getMentors small_store
      ++ [snd (createUser small_store
            (mkInsertUser "ana@mentorconnect.com" "password123" "Ana" "Rodrigues"
               "mentor" "Tecnologia" undefined undefined (value 80) undefined)
            "0b7e5a2c-1f43-4c8e-9d2a-6e1f3b5a7c90" 1700000000000)].
Proof.
  exact (proj1 (@createUser_then_getMentors small_store
                  (mkInsertUser "ana@mentorconnect.com" "password123" "Ana" "Rodrigues"
                     "mentor" "Tecnologia" undefined undefined (value 80) undefined)
                  "0b7e5a2c-1f43-4c8e-9d2a-6e1f3b5a7c90" 1700000000000 eq_refl)).
Defined.

(* ================================================================== *)
(** ** Upcoming sessions while the clock runs *)

Lemma upcoming_scan_sublist clock userId l :
  forall k, incl (upcoming_scan clock k userId l) (filter (participant userId) l)
            /\ (List.length (upcoming_scan clock k userId l)
                <= List.length (filter (participant userId) l))%nat.
Proof.
  induction l as [|s r IH]; intros k; simpl; [split; [apply incl_refl | lia]|].
  destruct (participant userId s).
  - destruct (IH (S k)) as [Hi Hl].
    destruct ((clock k <? s_scheduledAt s) && negb (String.eqb (s_status s) "cancelled"))%bool;
      simpl; split; try lia.
    + intros x [<-|Hx]; [now left | right; now apply Hi].
    + now apply incl_tl.
  - apply IH.
Qed.

Lemma upcoming_scan_between lo hi clock userId l :
  between lo hi clock ->
  forall k,
    incl (filter (upcoming hi userId) l) (upcoming_scan clock k userId l)
    /\ incl (upcoming_scan clock k userId l) (filter (upcoming lo userId) l).
Proof.
  intros Hb. induction l as [|s r IH]; intros k; simpl; [split; apply incl_refl|].
  assert (Hup : forall t, upcoming t userId s
                 = (participant userId s
                    && ((t <? s_scheduledAt s)
                        && negb (String.eqb (s_status s) "cancelled")))%bool)
    by reflexivity.
  rewrite (Hup hi), (Hup lo).
  destruct (participant userId s); simpl; [|apply IH].
  destruct (IH (S k)) as [H1 H2]. specialize (Hb k).
  destruct (negb (String.eqb (s_status s) "cancelled")).
  - rewrite !andb_true_r.
    destruct (hi <? s_scheduledAt s) eqn:Ehi, (clock k <? s_scheduledAt s) eqn:Ec,
             (lo <? s_scheduledAt s) eqn:Elo;
      try (apply Z.ltb_lt in Ehi); try (apply Z.ltb_lt in Ec); try (apply Z.ltb_lt in Elo);
      try (apply Z.ltb_ge in Ehi); try (apply Z.ltb_ge in Ec); try (apply Z.ltb_ge in Elo);
      try lia; split;
      try (intros x [<-|Hx]; [now left | right; auto]);
      try (apply incl_tl; assumption); try assumption.
  - rewrite !andb_false_r. now split.
Qed.

(** X3. While the clock runs during a call of [getUpcomingSessions], with
    all its readings between [lo] and [hi], the result has every session
    that is upcoming at [hi], and only sessions that are upcoming at [lo].
    Whatever the clock does, the result is made of sessions of the user
    that are not cancelled, and is no longer than [getUserSessions]. *)
Theorem getUpcomingSessions_running_clock (clock : Clock) (st : MemStorage)
    (userId : string) (lo hi : timestamp) :
  (between lo hi clock ->
     incl (filter (upcoming hi userId) (JsMap.values (sessions st)))
          (getUpcomingSessions clock st userId)
     /\ incl (getUpcomingSessions clock st userId)
             (filter (upcoming lo userId) (JsMap.values (sessions st))))
  /\ (forall s, In s (getUpcomingSessions clock st userId) ->
        In s (getUserSessions st userId) /\ s_status s <> "cancelled")
  /\ (List.length (getUpcomingSessions clock st userId)
      <= List.length (getUserSessions st userId))%nat.
Proof.
  unfold getUpcomingSessions, getUserSessions. split; [|split].
  - intros Hb. now apply upcoming_scan_between.
  - intros s Hin. split.
    + now apply (upcoming_scan_sublist clock userId (JsMap.values (sessions st)) 0).
    + now destruct (upcoming_scan_sound _ _ _ _ _ Hin) as (_ & _ & H & _).
  - apply upcoming_scan_sublist.
Qed.

Lemma getUpcomingSessions_running_clock_witness :
  incl (getUpcomingSessions (fun k => Z.of_nat (Nat.min k 5)) example_sessions "student1")
       (filter (upcoming 0 "student1") (JsMap.values (sessions example_sessions))).
Proof.
  refine (proj2 (proj1 (getUpcomingSessions_running_clock
                          (fun k => Z.of_nat (Nat.min k 5))
                          example_sessions "student1" 0 5) _)).
  intros k. lia.
Defined.

(* ================================================================== *)
(** ** Scheduling and cancelling *)

(** X4. After [createSession], the new session is among the upcoming
    sessions of a user at an instant exactly when the user is its student
    or its mentor, the session is scheduled after the instant, and the
    status it was created with, "pending" when the input gives none or an
    empty one, is not "cancelled".  The store does not ask whether the two
    ids are users, or different users. *)
Theorem createSession_then_upcoming (st : MemStorage) (insertSession : InsertSession)
    (id : string) (created now : timestamp) (userId : string) :
  let st' := fst (createSession st insertSession id created) in
  let session := snd (createSession st insertSession id created) in
  In session (getUpcomingSessions (frozen now) st' userId) <->
  (is_studentId insertSession = userId \/ is_mentorId insertSession = userId)
  /\ now < is_scheduledAt insertSession
  /\ or_default (is_status insertSession) "pending" <> "cancelled".
Proof.
  intros st' session. rewrite getUpcomingSessions_frozen, filter_In, upcoming_iff.
  assert (Hin : In session (JsMap.values (sessions st'))).
  { apply JsMapFacts.get_In_values with (k := id). apply JsMapFacts.get_set_same. }
  simpl. tauto.
Qed.

Lemma filter_length_replace (A : Type) (p : A -> bool) (before after : list A) (x : A) :
  List.length (filter p (before ++ x :: after))
    = (List.length (filter p (before ++ after)) + (if p x then 1 else 0))%nat.
Proof.
  rewrite !filter_app, !length_app. simpl. destruct (p x); simpl; lia.
Qed.

(** X5. Cancelling a stored session through [updateSessionStatus] takes it
    out of the upcoming sessions and touches no other: for every user and
    instant, the number of upcoming sessions goes down by one when the
    session was upcoming for that user, and stays the same when it was
    not. *)
Theorem cancel_leaves_upcoming (st : MemStorage) (id : string) (session : Session)
    (now : timestamp) (userId : string) :
  JsMap.get (sessions st) id = Some session ->
  let st' := fst (updateSessionStatus st id "cancelled") in
  (List.length (getUpcomingSessions (frozen now) st' userId)
   + (if upcoming now userId session then 1 else 0))%nat
  = List.length (getUpcomingSessions (frozen now) st userId).
Proof.
  intros Hget st'. rewrite !getUpcomingSessions_frozen.
  unfold st', updateSessionStatus. rewrite Hget. simpl.
  destruct (JsMapSplit.set_split _ _ Hget) as (before & after & Hm & Hset).
  rewrite Hset, Hm, !values_app. simpl.
  rewrite !filter_length_replace.
  match goal with
  | |- context [upcoming now userId ?u] =>
      match u with
      | session => fail 1
      | _ => replace (upcoming now userId u) with false
      end
  end.
  - lia.
  - unfold upcoming. cbn [s_status]. rewrite String.eqb_refl. simpl negb.
    now rewrite !andb_false_r.
Qed.

Lemma cancel_leaves_upcoming_witness :
  (List.length
     (getUpcomingSessions (frozen 0%Z)
        (fst (updateSessionStatus small_store "session1" "cancelled")) "student1")
   + 1)%nat
  = List.length (getUpcomingSessions (frozen 0) small_store "student1").
Proof.
  exact (@cancel_leaves_upcoming small_store "session1"
           (a_session "session1" "student1" "mentor1" 7200000 60 "confirmed")
           0 "student1" eq_refl).
Defined.

(* ================================================================== *)
(** ** Kanban items: removal, and an id changed by an update *)

(** X6. In a store whose map of Kanban items has one entry per key,
    [deleteKanbanItem] of an id that holds an item removes that item from
    the list of [getKanbanItems] and nothing else: the items before it and
    after it stay, in their order. *)
Theorem deleteKanbanItem_removes_one (st : MemStorage) (id : string) (item : KanbanItem) :
  JsMap.wf (kanbanItems st) ->
  JsMap.get (kanbanItems st) id = Some item ->
  exists before after,
    getKanbanItems st = before ++ item :: after
    /\ getKanbanItems (fst (deleteKanbanItem st id)) = before ++ after.
Proof.
  intros Hwf Hget.
  destruct (@JsMapFacts.remove_wf _ _ _ _ Hwf Hget) as (before & after & Hm & Hr).
  exists (JsMap.values before), (JsMap.values after).
  unfold getKanbanItems; simpl. rewrite Hr, Hm, !values_app. now split.
Qed.

Lemma deleteKanbanItem_removes_one_witness :
  exists before after,
    getKanbanItems small_store
      = before ++ snd (createKanbanItem empty_store
                         (new_item "Landing page" "story" (value 2)) "kanban10" 0)
                  :: after
    /\ getKanbanItems (fst (deleteKanbanItem small_store "kanban10")) = before ++ after.
Proof.
  apply deleteKanbanItem_removes_one.
  - unfold JsMap.wf. vm_compute. constructor; [simpl; tauto | constructor].
  - reflexivity.
Defined.

(** X7. [updateKanbanItem] merges whatever the partial object names, its
    [id] too.  When the object names an id that is not a key of the map,
    the item stays filed under its old key but now carries the new id; the
    item is still listed, and [PATCH] and [DELETE] on the id that it shows
    are answered 404. *)
Theorem patch_id_orphans_item (isEmail : string -> bool) (st : MemStorage)
    (id newId : string) (item : KanbanItem) (body again : PartialKanbanItem)
    (uuid : string) (clock : Clock) :
  JsMap.get (kanbanItems st) id = Some item ->
  pk_id body = Some newId ->
  JsMap.get (kanbanItems st) newId = None ->
  let st' := fst (handle isEmail st (PatchKanban id body) uuid clock) in
  (exists moved,
     JsMap.get (kanbanItems st') id = Some moved
     /\ k_id moved = newId
     /\ In moved (getKanbanItems st'))
  /\ JsMap.get (kanbanItems st') newId = None
  /\ res_status (snd (handle isEmail st' (DeleteKanban newId) uuid clock)) = 404
  /\ res_status (snd (handle isEmail st' (PatchKanban newId again) uuid clock)) = 404.
Proof.
  intros Hget Hid Hnew st'.
  assert (Hne : newId <> id) by (intros ->; congruence).
  assert (Hst' : kanbanItems st'
                 = JsMap.set (kanbanItems st) id (merge_kanbanItem item body)).
  { unfold st', handle, updateKanbanItem. now rewrite Hget. }
  assert (Hmoved : JsMap.get (kanbanItems st') id = Some (merge_kanbanItem item body)).
  { rewrite Hst'. apply JsMapFacts.get_set_same. }
  assert (Hgone : JsMap.get (kanbanItems st') newId = None).
  { rewrite Hst', JsMapFacts.get_set_other by exact Hne. exact Hnew. }
  split; [|split; [exact Hgone|split]].
  - exists (merge_kanbanItem item body). split; [exact Hmoved|]. split.
    + simpl. now rewrite Hid.
    + unfold getKanbanItems. now apply JsMapFacts.get_In_values with (k := id).
  - unfold handle, deleteKanbanItem, JsMap.delete, JsMap.has. now rewrite Hgone.
  - unfold handle, updateKanbanItem. now rewrite Hgone.
Qed.

Lemma patch_id_orphans_item_witness :
  res_status
    (snd (handle has_at
            (fst (handle has_at small_store
                    (PatchKanban "kanban10"
                       (mkPartialKanbanItem (Some "kanban11") None None None
                          (Some "done") None None None None None))
                    "" (frozen 0)))
            (DeleteKanban "kanban11") "" (frozen 0)))
  = 404.
Proof.
  exact (proj1 (proj2 (proj2
           (@patch_id_orphans_item has_at small_store "kanban10" "kanban11"
              (snd (createKanbanItem empty_store
                      (new_item "Landing page" "story" (value 2)) "kanban10" 0))
              (mkPartialKanbanItem (Some "kanban11") None None None
                 (Some "done") None None None None None)
              no_change "" (frozen 0) eq_refl eq_refl eq_refl)))).
Defined.

(* ================================================================== *)
(** ** The stores that the server reaches *)

Lemma fst_handle isEmail st req uuid clock :
  fst (handle isEmail st req uuid clock)
  = match req with
    | Register userData => fst (register st userData uuid (clock 0%nat))
    | PostSession sessionData => fst (createSession st sessionData uuid (clock 0%nat))
    | PatchSessionStatus id status => fst (updateSessionStatus st id status)
    | PostKanban itemData => fst (createKanbanItem st itemData uuid (clock 0%nat))
    | PatchKanban id body => fst (updateKanbanItem st id body)
    | DeleteKanban id => fst (deleteKanbanItem st id)
    | _ => st
    end.
Proof.
  destruct req; simpl; try reflexivity.
  - now destruct (register st userData uuid (clock 0%nat)).
  - destruct (String.eqb id "mentors"); [reflexivity|]. now destruct (getUser st id).
  - now destruct (updateSessionStatus st id status) as [st' [s|]].
  - now destruct (updateKanbanItem st id body) as [st' [i|]].
  - now destruct (JsMap.has (kanbanItems st) id).
Qed.

Lemma NoDup_by_nodup (l : list string) : nodup string_dec l = l -> NoDup l.
Proof. intros <-. apply NoDup_nodup. Qed.

Lemma seedData_invariant clock : routes_invariant (seedData clock).
Proof.
  split; [|split; [|split]].
  - repeat split; apply NoDup_by_nodup; vm_compute; reflexivity.
  - apply NoDup_by_nodup. vm_compute. reflexivity.
  - unfold keys_are_ids, seedData; simpl. repeat constructor.
  - unfold keys_are_ids, seedData; simpl. repeat constructor.
Qed.

Lemma register_emails_distinct st userData id now :
  emails_distinct st -> emails_distinct (fst (register st userData id now)).
Proof.
  intros Hinv. unfold register.
  destruct (getUserByEmail st (iu_email userData)) eqn:G; simpl; [assumption|].
  apply getUserByEmail_None in G. unfold emails_distinct, emails in *; simpl.
  apply JsMapFacts.NoDup_map_values_set; assumption.
Qed.

Lemma handle_invariant isEmail st req uuid clock :
  routes_invariant st -> routes_invariant (fst (handle isEmail st req uuid clock)).
Proof.
  intros Hinv. rewrite fst_handle.
  destruct Hinv as (Hwf & Hmails & Hu & Hs).
  destruct req; try (split; [exact Hwf | now repeat split]).
  - (* Register *)
    split; [now apply register_wf|]. split; [now apply register_emails_distinct|].
    unfold register. destruct (getUserByEmail st (iu_email userData)); simpl.
    + now split.
    + split; [|assumption]. now apply JsMapSplit.Forall_set.
  - (* PostSession *)
    split; [now apply createSession_wf|]. simpl. split; [assumption|].
    split; [assumption|]. now apply JsMapSplit.Forall_set.
  - (* PatchSessionStatus *)
    split; [now apply updateSessionStatus_wf|].
    unfold updateSessionStatus.
    destruct (JsMap.get (sessions st) id) as [session|] eqn:G; simpl.
    + split; [assumption|]. split; [assumption|].
      apply JsMapSplit.Forall_set; [assumption|]. simpl.
      apply JsMapSplit.get_In in G.
      unfold keys_are_ids in Hs. rewrite Forall_forall in Hs. exact (Hs _ G).
    + repeat split; assumption.
  - (* PostKanban *)
    split; [now apply createKanbanItem_wf|]. simpl. now repeat split.
  - (* PatchKanban *)
    split; [now apply updateKanbanItem_wf|].
    unfold updateKanbanItem. destruct (JsMap.get (kanbanItems st) id); simpl;
      now repeat split.
  - (* DeleteKanban *)
    split; [now apply deleteKanbanItem_wf|]. simpl. now repeat split.
Qed.

(** X8. In every store that the server reaches from its seed through the
    requests of its routes, whatever ids and times are generated: each map
    has one entry per key, the stored users have pairwise distinct emails,
    and every user and every session is filed under the id it carries. *)
Theorem reachable_invariant (isEmail : string -> bool) (st : MemStorage) :
  reachable isEmail st ->
  store_wf st
  /\ emails_distinct st
  /\ keys_are_ids u_id (users st)
  /\ keys_are_ids s_id (sessions st).
Proof.
  intros Hr. change (routes_invariant st).
  induction Hr as [clock | st req uuid clock Hr IH].
  - apply seedData_invariant.
  - now apply handle_invariant.
Qed.

Lemma reachable_invariant_witness :
  emails_distinct
    (fst (handle has_at (seedData (frozen 1700000000000))
            (Register (a_student "maria@student.com" undefined))
            "0b7e5a2c-1f43-4c8e-9d2a-6e1f3b5a7c90" (frozen 1700000000500))).
Proof.
  exact (proj1 (proj2 (reachable_invariant
           (reachable_step (Register (a_student "maria@student.com" undefined))
              "0b7e5a2c-1f43-4c8e-9d2a-6e1f3b5a7c90" (frozen 1700000000500)
              (reachable_seed has_at (frozen 1700000000000)))))).
Defined.

(** X9. No request removes a user or a session: the keys of both maps are
    still there after any request.  Only a registration changes the map of
    users, and when the id generated for it is new, every stored user is
    found afterwards as it was. *)
Theorem requests_keep_users_and_sessions (isEmail : string -> bool)
    (st : MemStorage) (req : Request) (uuid : string) (clock : Clock) :
  let st' := fst (handle isEmail st req uuid clock) in
  incl (JsMap.keys (users st)) (JsMap.keys (users st'))
  /\ incl (JsMap.keys (sessions st)) (JsMap.keys (sessions st'))
  /\ ((forall userData, req <> Register userData) -> users st' = users st)
  /\ (getUser st uuid = None ->
      forall id user, getUser st id = Some user -> getUser st' id = Some user).
Proof.
  intros st'. unfold st'. rewrite fst_handle.
  destruct req; simpl;
    try (split; [apply incl_refl|]; split; [apply incl_refl|];
         split; [reflexivity | now auto]).
  - (* Register *)
    unfold register. destruct (getUserByEmail st (iu_email userData)); simpl.
    + split; [apply incl_refl|]. split; [apply incl_refl|].
      split; [reflexivity | now auto].
    + split; [apply JsMapSplit.keys_set_incl|]. split; [apply incl_refl|].
      split; [intros H; now destruct (H userData)|].
      intros Hfresh id user Hget. unfold getUser in *; simpl.
      rewrite JsMapFacts.get_set_other; [assumption|]. intros ->. congruence.
  - (* PostSession *)
    split; [apply incl_refl|]. split; [apply JsMapSplit.keys_set_incl|].
    split; [reflexivity | now auto].
  - (* PatchSessionStatus *)
    unfold updateSessionStatus. destruct (JsMap.get (sessions st) id); simpl.
    + split; [apply incl_refl|]. split; [apply JsMapSplit.keys_set_incl|].
      split; [reflexivity | now auto].
    + split; [apply incl_refl|]. split; [apply incl_refl|].
      split; [reflexivity | now auto].
  - (* PatchKanban *)
    unfold updateKanbanItem. destruct (JsMap.get (kanbanItems st) id); simpl;
      (split; [apply incl_refl|]; split; [apply incl_refl|];
       split; [reflexivity | now auto]).
Qed.

Lemma requests_keep_users_and_sessions_witness :
  getUser
    (fst (handle has_at small_store (Register (a_student "maria@student.com" undefined))
            "0b7e5a2c-1f43-4c8e-9d2a-6e1f3b5a7c90" (frozen 5)))
    "student1"
  = Some (snd (createUser empty_store (a_student "joao@student.com" (value 0))
                 "student1" 0)).
Proof.
  exact (proj2 (proj2 (proj2
           (requests_keep_users_and_sessions has_at small_store
              (Register (a_student "maria@student.com" undefined))
              "0b7e5a2c-1f43-4c8e-9d2a-6e1f3b5a7c90" (frozen 5))))
           eq_refl "student1" _ eq_refl).
Defined.

(* ================================================================== *)
(** ** Logging in *)

Lemma getUserByEmail_after_register st userData uuid now :
  ~ In (iu_email userData) (emails st) ->
  getUserByEmail (fst (createUser st userData uuid now)) (iu_email userData)
    = Some (snd (createUser st userData uuid now)).
Proof.
  intros Hnew. unfold getUserByEmail; simpl.
  apply JsMapSplit.find_values_set.
  - simpl. apply String.eqb_refl.
  - intros x Hx. apply String.eqb_neq. intros Heq. apply Hnew.
    rewrite <- Heq. unfold emails. now apply in_map.
Qed.

(** X10. A registration with an email that no stored user has is answered
    201.  A login with the same email and password is then answered 200 with
    the same user and token when the two pass the schema of the login (an
    email that zod accepts, a password of at least 6 UTF-16 units), and 400
    when they do not: the registration tests neither, so a user registered
    with a shorter password is refused at every login.  A login with the
    same email and another password is answered 401 when it passes the
    schema and 400 when it does not. *)
Theorem register_then_login (isEmail : string -> bool) (st : MemStorage)
    (userData : InsertUser) (uuid : string) (clock : Clock) :
  ~ In (iu_email userData) (emails st) ->
  let st' := fst (handle isEmail st (Register userData) uuid clock) in
  let answer := snd (handle isEmail st (Register userData) uuid clock) in
  let login_with password :=
    snd (handle isEmail st' (Login (iu_email userData) password) uuid clock) in
  let accepts password := loginSchema_accepts isEmail (iu_email userData) password in
  res_status answer = 201
  /\ (accepts (iu_password userData) = true ->
      login_with (iu_password userData) = mkResponse 200 (res_body answer))
  /\ (accepts (iu_password userData) = false ->
      login_with (iu_password userData) = invalid)
  /\ (forall password, password <> iu_password userData ->
        res_status (login_with password) = if accepts password then 401 else 400).
Proof.
  intros Hnew st' answer login_with accepts.
  pose proof (getUserByEmail_after_register st userData uuid (clock 0%nat) Hnew) as Hfound.
  pose proof Hnew as Hnone. apply getUserByEmail_None in Hnone.
  unfold login_with, accepts, st', answer, handle, register. rewrite Hnone.
  cbn [createUser fst snd register_response res_status res_body].
  cbn [createUser fst snd] in Hfound.
  split; [reflexivity|]. split; [|split].
  - intros Hok. unfold login. rewrite Hok, Hfound. cbn [u_password].
    now rewrite String.eqb_refl.
  - intros Hko. unfold login. now rewrite Hko.
  - intros password Hne. unfold login.
    destruct (loginSchema_accepts isEmail (iu_email userData) password);
      [|reflexivity].
    rewrite Hfound. cbn [u_password].
    apply not_eq_sym, String.eqb_neq in Hne. now rewrite Hne.
Qed.

Lemma register_then_login_witness :
  snd (handle has_at
         (fst (handle has_at small_store
                 (Register (a_student "maria@student.com" undefined))
                 "0b7e5a2c-1f43-4c8e-9d2a-6e1f3b5a7c90" (frozen 5)))
         (Login "maria@student.com" "password123")
         "0b7e5a2c-1f43-4c8e-9d2a-6e1f3b5a7c90" (frozen 5))
  = mkResponse 200
      (res_body
         (snd (handle has_at small_store
                 (Register (a_student "maria@student.com" undefined))
                 "0b7e5a2c-1f43-4c8e-9d2a-6e1f3b5a7c90" (frozen 5)))).
Proof.
  refine (proj1 (proj2 (@register_then_login has_at small_store
                          (a_student "maria@student.com" undefined)
                          "0b7e5a2c-1f43-4c8e-9d2a-6e1f3b5a7c90" (frozen 5) _)) _).
  - vm_compute. intros [H|[]]. discriminate H.
  - reflexivity.
Defined.

(** X11. A login is answered 400 exactly when its email and password do
    not pass the schema of the login.  In a store whose users have pairwise
    distinct emails, it is answered 200 exactly when they pass the schema
    and a stored user has the email and the password given, both compared
    exactly.  Every other login is answered 401. *)
Theorem login_decision (isEmail : string -> bool) (st : MemStorage)
    (email password : string) (uuid : string) (clock : Clock) :
  emails_distinct st ->
  let answer := snd (handle isEmail st (Login email password) uuid clock) in
  (res_status answer = 400 <-> loginSchema_accepts isEmail email password = false)
  /\ (res_status answer = 200 <->
      loginSchema_accepts isEmail email password = true
      /\ exists user, In user (JsMap.values (users st))
                      /\ u_email user = email /\ u_password user = password)
  /\ (res_status answer = 200 \/ res_status answer = 400 \/ res_status answer = 401).
Proof.
  intros Hnd answer. unfold answer, handle, login. cbn [snd].
  destruct (loginSchema_accepts isEmail email password).
  2:{ simpl. split; [tauto|]. split; [|tauto].
      split; [discriminate | intros [H _]; discriminate H]. }
  destruct (getUserByEmail st email) as [user|] eqn:G.
  - destruct (find_some _ _ G) as [Hin Hmail]. apply String.eqb_eq in Hmail.
    destruct (String.eqb (u_password user) password) eqn:P; simpl.
    + apply String.eqb_eq in P. split; [split; discriminate|]. split; [|now left].
      split; [intros _; split; [reflexivity | now exists user] | reflexivity].
    + apply String.eqb_neq in P.
      split; [split; discriminate|]. split; [|now right; right].
      split; [discriminate|]. intros (_ & other & Hin' & Hm & Hp).
      assert (other = user).
      { apply (@NoDup_map_inj _ _ u_email (JsMap.values (users st))); auto.
        congruence. }
      subst other. contradiction.
  - simpl. split; [split; discriminate|]. split; [|now right; right].
    split; [discriminate|].
    intros (_ & other & Hin & Hm & _). apply getUserByEmail_None in G.
    exfalso. apply G. rewrite <- Hm. unfold emails. now apply in_map.
Qed.

Lemma login_decision_witness :
  res_status
    (snd (handle has_at small_store (Login "joao@student.com" "password123")
            "" (frozen 0)))
  = 200.
Proof.
  assert (Hnd : emails_distinct small_store).
  { unfold emails_distinct. vm_compute. constructor; [simpl; tauto | constructor]. }
  apply (proj1 (proj2 (@login_decision has_at small_store "joao@student.com"
                         "password123" "" (frozen 0) Hnd))).
  split; [reflexivity|].
  eexists. split; [vm_compute; left; reflexivity | split; reflexivity].
Defined.

(* ================================================================== *)
(** ** Answers that refuse *)




(* ================================================================== *)
(** ** The dashboard at its edges *)

Lemma Set_of_length_le xs : (List.length (Set_of xs) <= List.length xs)%nat.
Proof.
  destruct (Set_of_spec xs) as [Hnd Hin].
  apply NoDup_incl_length; [exact Hnd|]. intros y Hy. now apply Hin.
Qed.

Lemma fold_Set_add_same x xs :
  (forall y, In y xs -> y = x) -> fold_left Set_add xs [x] = [x].
Proof.
  induction xs as [|y r IH]; simpl; intros Hall; [reflexivity|].
  rewrite (Hall y) by now left. rewrite String.eqb_refl. apply IH.
  intros z Hz. apply Hall. now right.
Qed.

Lemma filter_none (A : Type) (p : A -> bool) (l : list A) :
  (forall x, In x l -> p x = false) -> filter p l = [].
Proof.
  induction l as [|x r IH]; simpl; intros Hall; [reflexivity|].
  rewrite (Hall x) by now left. apply IH. intros y Hy. apply Hall. now right.
Qed.

(** X13. Whatever the clock does, the dashboard never counts more
    scheduled sessions or more connected mentors than the user has
    sessions; a user without sessions gets 0, 0 and 0 hours; and a user
    none of whose sessions is completed gets 0 hours. *)
Theorem dashboard_bounds (clock : Clock) (st : MemStorage) (userId : string) :
  let stats := dashboardStats clock st userId in
  (scheduledSessions stats <= List.length (getUserSessions st userId))%nat
  /\ (connectedMentors stats <= List.length (getUserSessions st userId))%nat
  /\ (getUserSessions st userId = [] ->
      scheduledSessions stats = 0%nat /\ connectedMentors stats = 0%nat
      /\ mentoringHours stats = Number.of_Z 0)
  /\ ((forall s, In s (getUserSessions st userId) -> s_status s <> "completed") ->
      mentoringHours stats = Number.of_Z 0).
Proof.
  intros stats.
  assert (Hs : (scheduledSessions stats <= List.length (getUserSessions st userId))%nat).
  { apply (upcoming_scan_sublist clock userId (JsMap.values (sessions st)) 0). }
  assert (Hc : (connectedMentors stats <= List.length (getUserSessions st userId))%nat).
  { unfold stats, dashboardStats; simpl.
    rewrite <- (length_map s_mentorId (getUserSessions st userId)).
    apply Set_of_length_le. }
  assert (Hh : (forall s, In s (getUserSessions st userId) -> s_status s <> "completed") ->
               mentoringHours stats = Number.of_Z 0).
  { intros Hnone. unfold stats. rewrite dashboard_mentoringHours.
    replace (filter completed (getUserSessions st userId)) with (@nil Session);
      [reflexivity|].
    symmetry. apply filter_none. intros s Hin.
    unfold completed. apply String.eqb_neq. now apply Hnone. }
  split; [exact Hs|]. split; [exact Hc|]. split; [|exact Hh].
  intros Hnil. rewrite Hnil in Hs, Hc.
  apply Nat.le_0_r in Hs. apply Nat.le_0_r in Hc.
  split; [exact Hs|]. split; [exact Hc|]. apply Hh. rewrite Hnil. intros s [].
Qed.

Lemma dashboard_bounds_witness :
  mentoringHours (dashboardStats (frozen 0) small_store "student1") = Number.of_Z 0.
Proof.
  apply (proj2 (proj2 (proj2 (dashboard_bounds (frozen 0) small_store "student1")))).
  intros s [<-|[]]. simpl. discriminate.
Defined.

(** X14. The mentors that the dashboard counts are the [mentorId] values
    of all the user's sessions, the user's own id among them: a user who has
    sessions and is the mentor of each of them is shown exactly one
    connected mentor, which is the user. *)
Theorem mentor_counts_as_own_mentor (clock : Clock) (st : MemStorage) (userId : string) :
  getUserSessions st userId <> [] ->
  (forall s, In s (getUserSessions st userId) -> s_mentorId s = userId) ->
  connectedMentors (dashboardStats clock st userId) = 1%nat
  /\ Set_of (map s_mentorId (getUserSessions st userId)) = [userId].
Proof.
  intros Hne Hall.
  assert (Hset : Set_of (map s_mentorId (getUserSessions st userId)) = [userId]).
  { destruct (getUserSessions st userId) as [|s r]; [congruence|].
    unfold Set_of. simpl. rewrite (Hall s) by now left.
    apply fold_Set_add_same. intros y Hy.
    apply in_map_iff in Hy as [s' [<- Hs']]. apply Hall. now right. }
  split; [|exact Hset]. unfold dashboardStats; simpl. now rewrite Hset.
Qed.

Lemma mentor_counts_as_own_mentor_witness :
  connectedMentors (dashboardStats (frozen 0) small_store "mentor1") = 1%nat.
Proof.
  refine (proj1 (@mentor_counts_as_own_mentor (frozen 0) small_store "mentor1" _ _)).
  - vm_compute. discriminate.
  - intros s [<-|[]]. reflexivity.
Defined.

(* ================================================================== *)
(** ** The Kanban board *)

Lemma shown_In items item :
  In item (shown items) <-> In item items /\ In (k_status item) statusColumns.
Proof.
  unfold shown. rewrite in_flat_map. split.
  - intros (column & Hc & Hin). apply filter_In in Hin as [Hin Heq].
    apply String.eqb_eq in Heq. split; [assumption | now rewrite Heq].
  - intros [Hin Hc]. exists (k_status item). split; [assumption|].
    apply filter_In. split; [assumption | apply String.eqb_refl].
Qed.

Lemma counts_sum_shown items :
  list_sum (map snd (getStatusCounts items)) = List.length (shown items).
Proof.
  unfold getStatusCounts, shown, statusColumns. simpl.
  rewrite !length_app. simpl. lia.
Qed.

Lemma shown_off_board_total items :
  (List.length (shown items) + List.length (filter off_board items))%nat
  = totalItems items.
Proof.
  unfold shown, statusColumns, totalItems. simpl. rewrite !length_app. simpl.
  induction items as [|item r IH]; simpl; [reflexivity|].
  assert (Hoff : off_board item
                 = negb (String.eqb (k_status item) "backlog"
                         || (String.eqb (k_status item) "todo"
                             || (String.eqb (k_status item) "in_progress"
                                 || (String.eqb (k_status item) "done" || false)))))
    by reflexivity.
  rewrite Hoff. clear Hoff.
  destruct (String.eqb (k_status item) "backlog") eqn:E1;
  destruct (String.eqb (k_status item) "todo") eqn:E2;
  destruct (String.eqb (k_status item) "in_progress") eqn:E3;
  destruct (String.eqb (k_status item) "done") eqn:E4;
  try (apply String.eqb_eq in E1); try (apply String.eqb_eq in E2);
  try (apply String.eqb_eq in E3); try (apply String.eqb_eq in E4);
  try congruence; simpl; lia.
Qed.

(** X15. The four columns of the Kanban page show an item exactly when
    its status is "backlog", "todo", "in_progress" or "done"; the counts
    of the columns add up to the number of items shown, and the items shown
    together with the items of any other status are all the items.  When
    every status is one of the four, the counts add up to the total that
    the progress bar divides by; an item that an update gave another status
    is counted in that total and shown in no column. *)
Theorem board_columns (items : list KanbanItem) :
  (forall item, In item (shown items) <->
     In item items /\ In (k_status item) statusColumns)
  /\ list_sum (map snd (getStatusCounts items)) = List.length (shown items)
  /\ (List.length (shown items) + List.length (filter off_board items))%nat
     = totalItems items
  /\ ((forall item, In item items -> In (k_status item) statusColumns) ->
      list_sum (map snd (getStatusCounts items)) = totalItems items).
Proof.
  split; [intros item; apply shown_In|].
  split; [apply counts_sum_shown|].
  split; [apply shown_off_board_total|].
  intros Hall. rewrite counts_sum_shown, <- (shown_off_board_total items).
  rewrite filter_none; [symmetry; apply Nat.add_0_r|].
  intros item Hin. unfold off_board. apply negb_false_iff, existsb_exists.
  exists (k_status item). split; [now apply Hall | apply String.eqb_refl].
Qed.

Lemma board_columns_witness :
  list_sum (map snd (getStatusCounts (getKanbanItems (seedData (frozen 0)))))
  = totalItems (getKanbanItems (seedData (frozen 0))).
Proof.
  apply (proj2 (proj2 (proj2 (board_columns (getKanbanItems (seedData (frozen 0))))))).
  intros item Hin. vm_compute in Hin.
  repeat (destruct Hin as [<-|Hin]; [vm_compute; tauto|]). destruct Hin.
Defined.

(* ================================================================== *)
(** ** The store does not look at emails *)

Lemma find_app_some (A : Type) (p : A -> bool) (l l' : list A) (x : A) :
  find p l = Some x -> find p (l ++ l') = Some x.
Proof.
  induction l as [|y r IH]; simpl; [discriminate|].
  destruct (p y); [trivial | exact IH].
Qed.

(** X16. [createUser] itself does not compare emails: called with a new id
    and the email of a stored user, it stores a second user with that
    email, so the emails are no longer pairwise distinct; [getUserByEmail]
    keeps answering with the user that was there first, and unless the
    first user has the same password a login with the email and the
    password of the second user is never answered 200: it is answered 401
    when the two pass the schema of the login and 400 when they do not. *)
Theorem createUser_accepts_taken_email (isEmail : string -> bool) (st : MemStorage)
    (insertUser : InsertUser) (id : string) (now : timestamp)
    (uuid : string) (clock : Clock) :
  JsMap.get (users st) id = None ->
  In (iu_email insertUser) (emails st) ->
  let st' := fst (createUser st insertUser id now) in
  let answer :=
    snd (handle isEmail st' (Login (iu_email insertUser) (iu_password insertUser))
           uuid clock) in
  emails st' = emails st ++ [iu_email insertUser]
  /\ ~ emails_distinct st'
  /\ getUserByEmail st' (iu_email insertUser) = getUserByEmail st (iu_email insertUser)
  /\ (forall first, getUserByEmail st (iu_email insertUser) = Some first ->
        u_password first <> iu_password insertUser ->
        res_status answer
        = if loginSchema_accepts isEmail (iu_email insertUser) (iu_password insertUser)
          then 401 else 400).
Proof.
  intros Hfresh Htaken st' answer.
  assert (Hvals : JsMap.values (users st')
                  = JsMap.values (users st) ++ [snd (createUser st insertUser id now)]).
  { unfold st'; simpl. rewrite JsMapSplit.set_fresh by exact Hfresh. apply values_app. }
  assert (Hmails : emails st' = emails st ++ [iu_email insertUser]).
  { unfold emails. rewrite Hvals, map_app. reflexivity. }
  assert (Hfind : getUserByEmail st' (iu_email insertUser)
                  = getUserByEmail st (iu_email insertUser)).
  { destruct (getUserByEmail st (iu_email insertUser)) as [first|] eqn:G.
    - unfold getUserByEmail in *. rewrite Hvals. now apply find_app_some.
    - apply getUserByEmail_None in G. contradiction. }
  split; [exact Hmails|]. split; [|split; [exact Hfind|]].
  - unfold emails_distinct. rewrite Hmails. intros Hnd.
    apply NoDup_remove_2 in Hnd. apply Hnd. now rewrite app_nil_r.
  - intros first Hfirst Hpw. unfold answer, handle, login. cbn [snd].
    destruct (loginSchema_accepts isEmail (iu_email insertUser) (iu_password insertUser));
      [|reflexivity].
    rewrite Hfind, Hfirst. apply String.eqb_neq in Hpw. now rewrite Hpw.
Qed.

Lemma createUser_accepts_taken_email_witness :
  getUserByEmail
    (fst (createUser small_store
            (mkInsertUser "joao@student.com" "another-password" "Joao" "Souza"
               "student" "Design" undefined undefined undefined undefined)
            "0b7e5a2c-1f43-4c8e-9d2a-6e1f3b5a7c90" 5))
    "joao@student.com"
  = getUserByEmail small_store "joao@student.com".
Proof.
  refine (proj1 (proj2 (proj2
            (@createUser_accepts_taken_email has_at small_store
               (mkInsertUser "joao@student.com" "another-password" "Joao" "Souza"
                  "student" "Design" undefined undefined undefined undefined)
               "0b7e5a2c-1f43-4c8e-9d2a-6e1f3b5a7c90" 5 "" (frozen 5) eq_refl _)))).
  vm_compute. now left.
Defined.
